(** * golrackpi: the authentication client (package [golrackpi])

    A shallow embedding of [AuthClient] and its operations
    [NewWithParameter], [SetScheme], [getUrl], [Login] and [Logout].

    Go strings are byte sequences and are modelled by [string]; byte slices
    are [list byte]; the decoded JSON objects ([map[string]interface{}]) are
    [gmap string json].  An HTTP round trip is a call to an oracle held by
    the [World]; every call is recorded, with its answer, in a log that is
    threaded through the operations together with the receiver [*AuthClient].
    A Go panic is an outcome of its own. *)

From Stdlib Require Import ZArith NArith List String Ascii Strings.Byte DecimalString Lia.
From Stdlib Require Import Floats.SpecFloat.
From stdpp Require Import base option gmap strings.

Import ListNotations.
Local Open Scope string_scope.
Local Open Scope Z_scope.

(** ** Strings and byte slices *)

Abbreviation bytes := (list byte).

(** [[]byte(s)] and [string(b)]. *)
Definition bytes_of_string (s : string) : bytes := list_byte_of_string s.
Definition string_of_bytes (b : bytes) : string := string_of_list_byte b.


(** ** encoding/base64: [StdEncoding.EncodeToString] *)

Module b64.

Definition encodeStd : string :=
  "ABCDEFGHIJKLMNOPQRSTUVWXYZabcdefghijklmnopqrstuvwxyz0123456789+/".

Definition StdPadding : ascii := "="%char.

(** [enc.encode[i]]; the index is always masked with [0x3F]. *)
Definition encode (i : N) : ascii :=
  nth (N.to_nat i) (list_ascii_of_string encodeStd) "A"%char.

Definition sextet (val : N) (shift : N) : ascii :=
  encode (N.land (N.shiftr val shift) 63).

(** The encoder loop: full groups of three source bytes give four
    characters; a remainder of one or two bytes is padded with [=]. *)
Fixpoint Encode (src : bytes) : string :=
  match src with
  | [] => ""
  | [s0] =>
      let val := N.shiftl (Byte.to_N s0) 16 in
      String (sextet val 18) (String (sextet val 12)
        (String StdPadding (String StdPadding "")))
  | [s0; s1] =>
      let val := N.lor (N.shiftl (Byte.to_N s0) 16) (N.shiftl (Byte.to_N s1) 8) in
      String (sextet val 18) (String (sextet val 12)
        (String (sextet val 6) (String StdPadding "")))
  | s0 :: s1 :: s2 :: rest =>
      let val := N.lor (N.lor (N.shiftl (Byte.to_N s0) 16)
                              (N.shiftl (Byte.to_N s1) 8)) (Byte.to_N s2) in
      String (sextet val 18) (String (sextet val 12)
        (String (sextet val 6) (String (sextet val 0) (Encode rest))))
  end.

Definition EncodeToString (src : bytes) : string := Encode src.

End b64.

(** ** fmt: [Sprintf] for the verbs [%s] and [%d], and strconv *)

Module fmt.

Inductive arg :=
| String_ (s : string)
| Int64 (n : Z).

(** [strconv.FormatInt(n, 10)]. *)
Definition FormatInt (n : Z) : string := NilZero.string_of_int (Z.to_int n).

(** One verb applied to one operand; a verb that does not fit its operand
    prints Go's [%!verb(type=value)] form. *)
Definition verb (v : ascii) (a : arg) : string :=
  match a with
  | String_ s =>
      if Ascii.eqb v "s" then s
      else if Ascii.eqb v "v" then s
      else "%!" +:+ String v ("(string=" +:+ s +:+ ")")
  | Int64 n =>
      if Ascii.eqb v "d" then FormatInt n
      else if Ascii.eqb v "v" then FormatInt n
      else "%!" +:+ String v ("(int64=" +:+ FormatInt n +:+ ")")
  end.

Fixpoint Sprintf (format : string) (a : list arg) : string :=
  match format with
  | "" => ""
  | String c rest =>
      if Ascii.eqb c "%" then
        match rest with
        | "" => "%!(NOVERB)"
        | String v rest' =>
            if Ascii.eqb v "%" then String "%" (Sprintf rest' a)
            else match a with
                 | [] => "%!" +:+ String v ("(MISSING)" +:+ Sprintf rest' [])
                 | x :: a' => verb v x +:+ Sprintf rest' a'
                 end
        end
      else String c (Sprintf rest a)
  end.

End fmt.

(** ** bytes.Compare *)

(** The loop of Go's [bytes.Compare] (internal/bytealg, portable version):
    the two slices are scanned from the front up to the shorter length and
    the scan stops at the first position where they differ; equal prefixes
    are ordered by length.  The second component counts the loop iterations
    that were executed. *)
Fixpoint Compare_loop (a b : bytes) (i : nat) : Z * nat :=
  match a, b with
  | c1 :: a', c2 :: b' =>
      if (Byte.to_N c1 <? Byte.to_N c2)%N then (-1, S i)
      else if (Byte.to_N c2 <? Byte.to_N c1)%N then (1, S i)
      else Compare_loop a' b' (S i)
  | [], [] => (0, i)
  | [], _ :: _ => (-1, i)
  | _ :: _, [] => (1, i)
  end.

Definition bytes_Compare (a b : bytes) : Z := fst (Compare_loop a b 0).
Definition bytes_Compare_iterations (a b : bytes) : nat := snd (Compare_loop a b 0).

(** A comparison runs in constant time when the work it does is fixed by
    the lengths of its operands, not by their contents. *)
Definition constant_time (work : bytes -> bytes -> nat) : Prop :=
  forall a a' b b' : bytes,
    length a = length a' -> length b = length b' -> work a b = work a' b'.

(** ** encoding/json: values decoded into [interface{}] *)

#[local] Set Warnings "-register-all".
Inductive json :=
| JNull
| JBool (b : bool)
| JNumber (f : spec_float)
| JString (s : string)
| JArray (l : list json)
| JObject (l : list (string * json)).

(** The dynamic type named by a failed type assertion. *)
Definition type_name (v : option json) : string :=
  match v with
  | None | Some JNull => "nil"
  | Some (JBool _) => "bool"
  | Some (JNumber _) => "float64"
  | Some (JString _) => "string"
  | Some (JArray _) => "[]interface {}"
  | Some (JObject _) => "map[string]interface {}"
  end.

(** ** Errors *)

(** A Go [error]: [nil] or the message of [errors.New]. *)
Abbreviation error := (option string).
Definition errors_New (text : string) : error := Some text.

(** ** net/http *)

(** A request as the code hands it to [http.Post] or [client.Do]: the
    method, the URL, the headers and the body of the call.  [ReqBody] is the
    marshalled JSON object, field by field in the order of the struct.  What
    the Go client makes of the call on the wire is not modelled: it sends
    nothing when [http.Post] cannot parse the URL, and it sends further
    requests when it follows redirects. *)
Record Request := {
  Method : string;
  URL : string;
  Header : list (string * string);
  ReqBody : list (string * string)
}.

(** A response.  [Body] is [None] when reading the body stream fails, and
    otherwise the map that [json.Decode] leaves in its target (the nil map,
    [∅], when the body is not a JSON object). *)
Record Response := {
  StatusCode : Z;
  Body : option (gmap string json)
}.

(** The two results [(resp, err)] of one call of [http.Post] or
    [client.Do]: the error, whatever its cause (a URL that does not parse, no
    connection, too many redirects), or the response the call returns, which
    is the last one when redirects were followed. *)
Inductive reply :=
| Failed (err : string)
| Answered (resp : Response).

(** An exchange is one call of [http.Post] or [client.Do] with its
    results. *)
Abbreviation Exchange := (Request * reply)%type.

(** ** The surroundings of the client *)

(** What the run draws from outside: the random generator behind
    [helper.RandSeq] and [helper.GenerateRandomBytes] (first result; its
    error is discarded by the caller), the error of [http.NewRequest], and
    the HTTP client of the Go library with the network and the peer behind
    it, which gives the results of a call knowing the calls so far. *)
Record World := {
  RandSeq : Z -> string;
  GenerateRandomBytes : Z -> bytes;
  http_NewRequest : string -> string -> error;
  http_Do : list Exchange -> Request -> reply
}.

(** The deterministic functions [Login] calls and whose code lies outside
    this file: package [internal/helper], and the Go library. *)
Record Primitives := {
  (** [helper.GetPBKDF2Hash(password, salt string, rounds int) []byte] *)
  GetPBKDF2Hash : string -> string -> Z -> bytes;
  (** [helper.GetHMACSHA256(secret []byte, message string) []byte] *)
  GetHMACSHA256 : bytes -> string -> bytes;
  (** [helper.GetSHA256Hash(data []byte) []byte] *)
  GetSHA256Hash : bytes -> bytes;
  (** [helper.CreateClientProof(clientSignature, clientKey []byte) string] *)
  CreateClientProof : bytes -> bytes -> string;
  (** HMAC-SHA-256 of a message under a key: what [Sum] returns for
      [hmac.New(sha256.New, key)] after the message has been written. *)
  hmac_sha256 : bytes -> bytes -> bytes;
  (** [Seal(nil, nonce, plaintext, nil)] of AES-GCM with 16-byte nonces
      under a key: the ciphertext followed by the tag. *)
  gcm_Seal : bytes -> bytes -> bytes -> bytes;
  (** First result of [b64.StdEncoding.DecodeString]. *)
  b64_DecodeString : string -> bytes;
  (** [int64(f)] where [f] is not representable; Go leaves the value to
      the implementation. *)
  int64_unrepresentable : spec_float -> Z
}.

(** [type AuthClient struct { Scheme, Server, Password, SessionId string }] *)
Record AuthClient := mkAuthClient {
  Scheme : string;
  Server : string;
  Password : string;
  SessionId : string
}.

Definition endpointAuthStart : string := "/api/v1/auth/start".
Definition endpointAuthFinish : string := "/api/v1/auth/finish".
Definition endpointAuthCreateSession : string := "/api/v1/auth/create_session".

(** [New]: a blank client with the default scheme. *)
Definition New : AuthClient :=
  {| Scheme := "http"; Server := ""; Password := ""; SessionId := "" |}.

(** [NewWithParameter]: [param] is passed by value; its [Scheme] is
    overwritten, and the composite literal that builds the result names
    [Scheme], [Server] and [Password] only, so [SessionId] takes the zero
    value of its type. *)
Definition NewWithParameter (param : AuthClient) : AuthClient :=
  let param :=
    if String.eqb (Scheme param) "https"
    then {| Scheme := "https"; Server := Server param;
            Password := Password param; SessionId := SessionId param |}
    else {| Scheme := "http"; Server := Server param;
            Password := Password param; SessionId := SessionId param |} in
  {| Scheme := Scheme param;
     Server := Server param;
     Password := Password param;
     SessionId := "" |}.

Definition SetServer (c : AuthClient) (server : string) : AuthClient :=
  {| Scheme := Scheme c; Server := server;
     Password := Password c; SessionId := SessionId c |}.

Definition SetPassword (c : AuthClient) (password : string) : AuthClient :=
  {| Scheme := Scheme c; Server := Server c;
     Password := password; SessionId := SessionId c |}.

Definition SetScheme (c : AuthClient) (scheme : string) : AuthClient :=
  let scheme := if String.eqb scheme "https" then "https" else "http" in
  {| Scheme := scheme; Server := Server c;
     Password := Password c; SessionId := SessionId c |}.

(** [getUrl]: [c.Scheme + "://" + c.Server + request]. *)
Definition getUrl (c : AuthClient) (request : string) : string :=
  Scheme c +:+ "://" +:+ Server c +:+ request.



(** ** Request bodies *)

(** [AuthStartRequestType], [AuthFinishRequestType], [AuthCreateSessionType]
    with their JSON field names. *)
Record AuthStartRequestType := { Nonce : string; Username : string }.
Record AuthFinishRequestType := { Finish_TransactionId : string; Proof_ : string }.
Record AuthCreateSessionType := {
  TransactionId : string; Iv : string; Tag : string; Payload : string
}.

Definition Marshal_start (r : AuthStartRequestType) : list (string * string) :=
  [("nonce", Nonce r); ("username", Username r)].
Definition Marshal_finish (r : AuthFinishRequestType) : list (string * string) :=
  [("transactionId", Finish_TransactionId r); ("proof", Proof_ r)].
Definition Marshal_session (r : AuthCreateSessionType) : list (string * string) :=
  [("transactionId", TransactionId r); ("iv", Iv r); ("tag", Tag r);
   ("payload", Payload r)].

(** ** Method bodies: state, early return and panic *)

(** The receiver and the calls of the HTTP client made so far, each with
    its results. *)
Record State := { client : AuthClient; exchanges : list Exchange }.

(** A statement falls through with a value, leaves the function through
    [return], or panics. *)
Inductive step (R A : Type) :=
| Continue (a : A)
| Return (r : R)
| Panicked (msg : string).
Arguments Continue {R A} a.
Arguments Return {R A} r.
Arguments Panicked {R A} msg.

Definition M (R A : Type) : Type := State -> step R A * State.

Definition pure {R A} (a : A) : M R A := fun st => (Continue a, st).
Definition return_ {R A} (r : R) : M R A := fun st => (Return r, st).
Definition panic {R A} (msg : string) : M R A := fun st => (Panicked msg, st).

Definition bind {R A B} (m : M R A) (k : A -> M R B) : M R B :=
  fun st =>
    match m st with
    | (Continue a, st') => k a st'
    | (Return r, st') => (Return r, st')
    | (Panicked msg, st') => (Panicked msg, st')
    end.

Notation "'let*' x ':=' m 'in' k" := (bind m (fun x => k))
  (at level 10, x name, m at level 100, k at level 200).
Notation "m ';;' k" := (bind m (fun _ => k))
  (at level 100, k at level 200, right associativity).

(** [if cond { return r }] *)
Definition return_if {R} (cond : bool) (r : R) : M R unit :=
  if cond then return_ r else pure tt.

(** [if err != nil { return r(err) }] *)
Definition return_on_err {R} (err : error) (r : string -> R) : M R unit :=
  match err with
  | Some text => return_ (r text)
  | None => pure tt
  end.

(** How a call of a method ends. *)
Inductive outcome (R : Type) :=
| Returned (r : R)
| Panic (msg : string).
Arguments Returned {R} r.
Arguments Panic {R} msg.

Definition call {R} (body : M R R) (st : State) : outcome R * State :=
  match body st with
  | (Continue r, st') | (Return r, st') => (Returned r, st')
  | (Panicked msg, st') => (Panic msg, st')
  end.

(** The receiver [c] and the assignment [c.SessionId = id]. *)
Definition receiver {R} : M R AuthClient := fun st => (Continue (client st), st).
Definition set_SessionId {R} (id : string) : M R unit :=
  fun st =>
    (Continue tt,
     {| client := {| Scheme := Scheme (client st); Server := Server (client st);
                     Password := Password (client st); SessionId := id |};
        exchanges := exchanges st |}).

(** Type assertions [v.(string)] and [v.(float64)] in their one-result
    form, which panics on any other dynamic type, [nil] included. *)
Definition assert_string {R} (v : option json) : M R string :=
  match v with
  | Some (JString s) => pure s
  | _ => panic ("interface conversion: interface {} is " +:+ type_name v +:+ ", not string")
  end.

Definition assert_float64 {R} (v : option json) : M R spec_float :=
  match v with
  | Some (JNumber f) => pure f
  | _ => panic ("interface conversion: interface {} is " +:+ type_name v +:+ ", not float64")
  end.

(** [comma-ok] lookup [_, ok := m[key]]. *)
Definition has_key (m : gmap string json) (key : string) : bool :=
  match m !! key with Some _ => true | None => false end.

Section Client.

Variable P : Primitives.
Variable W : World.

(** [int64(f)]: the fraction is discarded (truncation towards zero). *)
Definition int64_of_float64 (f : spec_float) : Z :=
  match f with
  | S754_zero _ => 0
  | S754_finite s m e =>
      let magnitude :=
        if 0 <=? e then Z.shiftl (Z.pos m) e else Z.shiftr (Z.pos m) (- e) in
      let v := if s then - magnitude else magnitude in
      if (- 2 ^ 63 <=? v) && (v <? 2 ^ 63) then v else int64_unrepresentable P f
  | _ => int64_unrepresentable P f
  end.

(** One call of the HTTP client ([http.Post], [client.Do]): the call gives
    its results and is recorded with them.  The log counts the calls the code
    makes, not the requests that reach the network. *)
Definition send {R} (req : Request) : M R reply :=
  fun st =>
    let r := http_Do W (exchanges st) req in
    (Continue r, {| client := client st; exchanges := exchanges st ++ [(req, r)] |}).

(** [http.Post(url, contentType, body)]: one call, recorded with the URL,
    the content type and the body it was given. *)
Definition http_Post {R} (url contentType : string) (body : list (string * string))
  : M R reply :=
  send {| Method := "POST"; URL := url;
          Header := [("Content-Type", contentType)]; ReqBody := body |}.

(** [if err != nil { return r }] after a request. *)
Definition check_err {R} (rp : reply) (r : R) : M R Response :=
  match rp with
  | Failed _ => return_ r
  | Answered resp => pure resp
  end.

(** [ioutil.ReadAll(resp.Body)] with its error check, followed by
    [json.NewDecoder(...).Decode(&result)], whose error is not looked at. *)
Definition ReadAll_Decode {R} (resp : Response) (r : R) : M R (gmap string json) :=
  match Body resp with
  | None => return_ r
  | Some result => pure result
  end.

(** [aes.NewCipher(key)]: the key must have 16, 24 or 32 bytes. *)
Definition aes_NewCipher (key : bytes) : error :=
  let k := Z.of_nat (length key) in
  if (k =? 16) || (k =? 24) || (k =? 32) then None
  else errors_New ("crypto/aes: invalid key size " +:+ fmt.FormatInt k).

(** [aesgcm.Seal(nil, nonce, plaintext, nil)] for the AEAD made by
    [cipher.NewGCMWithNonceSize(block, 16)] (which cannot fail for an AES
    block and a positive size); a nonce of another length panics. *)
Definition aesgcm_Seal {R} (key nonce plaintext : bytes) : M R bytes :=
  if Z.of_nat (length nonce) =? 16 then pure (gcm_Seal P key nonce plaintext)
  else panic "crypto/cipher: incorrect nonce length given to GCM".

(** [ciphertext[:len(ciphertext)-16], ciphertext[len(ciphertext)-16:]] *)
Definition split_tag {R} (ciphertext : bytes) : M R (bytes * bytes) :=
  let n := Z.of_nat (length ciphertext) - 16 in
  if n <? 0 then
    panic ("runtime error: slice bounds out of range [:" +:+ fmt.FormatInt n +:+ "]")
  else pure (firstn (Z.to_nat n) ciphertext, skipn (Z.to_nat n) ciphertext).

(** The running MAC [h := hmac.New(sha256.New, key)]: [Write] appends to
    the message, [Sum(nil)] gives the MAC of what was written. *)
Record HMAC := { hmac_key : bytes; hmac_written : bytes }.
Definition hmac_New (key : bytes) : HMAC := {| hmac_key := key; hmac_written := [] |}.
Definition hmac_Write (h : HMAC) (p : bytes) : HMAC :=
  {| hmac_key := hmac_key h; hmac_written := hmac_written h ++ p |}.
Definition hmac_Sum (h : HMAC) : bytes := hmac_sha256 P (hmac_key h) (hmac_written h).

(** The values of the key derivation in the middle of [Login], one field
    per local variable. *)
Record Derived := {
  saltedPassword : bytes;
  clientKey : bytes;
  serverKey : bytes;
  storedKey : bytes;
  authMessage : string;
  clientSignature : bytes;
  serverSignature : bytes;
  clientProof : string
}.

Definition derive (password userName nonce serverNonce serverSalt : string)
  (rounds : Z) : Derived :=
  let serverSaltDecoded := b64_DecodeString P serverSalt in
  let saltedPassword :=
    GetPBKDF2Hash P password (string_of_bytes serverSaltDecoded) rounds in
  let clientKey := GetHMACSHA256 P saltedPassword "Client Key" in
  let serverKey := GetHMACSHA256 P saltedPassword "Server Key" in
  let storedKey := GetSHA256Hash P clientKey in
  let authMessage :=
    fmt.Sprintf "n=%s,r=%s,r=%s,s=%s,i=%d,c=biws,r=%s"
      [fmt.String_ userName; fmt.String_ nonce; fmt.String_ serverNonce;
       fmt.String_ serverSalt; fmt.Int64 rounds; fmt.String_ serverNonce] in
  let clientSignature := GetHMACSHA256 P storedKey authMessage in
  let serverSignature := GetHMACSHA256 P serverKey authMessage in
  let clientProof := CreateClientProof P clientSignature clientKey in
  {| saltedPassword := saltedPassword; clientKey := clientKey;
     serverKey := serverKey; storedKey := storedKey;
     authMessage := authMessage; clientSignature := clientSignature;
     serverSignature := serverSignature; clientProof := clientProof |}.

(** The MAC written in three pieces after the signature check. *)
Definition protocolKey (d : Derived) : bytes :=
  let h := hmac_New (storedKey d) in
  let h := hmac_Write h (bytes_of_string "Session Key") in
  let h := hmac_Write h (bytes_of_string (authMessage d)) in
  let h := hmac_Write h (clientKey d) in
  hmac_Sum h.

(** [func (c *AuthClient) Login() (string, error)], statement by statement.
    The deferred [Body.Close()] calls have no effect on what is modelled;
    [int(rounds)] is the identity on a 64-bit platform. *)
Definition Login : M (string * error) (string * error) :=
  let randomString := RandSeq W 12 in
  let base64String := b64.EncodeToString (bytes_of_string randomString) in
  let userName := "user" in
  let startRequest := {| Nonce := base64String; Username := userName |} in
  let body := Marshal_start startRequest in
  let* c := receiver in
  let* rp := http_Post (getUrl c endpointAuthStart) "application/json" body in
  let* resp := check_err rp ("", errors_New "could not initiate authentication") in
  let* result :=
    ReadAll_Decode resp ("", errors_New "could not read authentication response") in
  let* serverNonce := assert_string (result !! "nonce") in
  let* roundsFloat := assert_float64 (result !! "rounds") in
  let rounds := int64_of_float64 roundsFloat in
  let* serverSalt := assert_string (result !! "salt") in
  let* transactionId := assert_string (result !! "transactionId") in
  let d := derive (Password c) userName (Nonce startRequest)
                  serverNonce serverSalt rounds in
  let finishRequest :=
    {| Finish_TransactionId := transactionId; Proof_ := clientProof d |} in
  let finishRequestBody := Marshal_finish finishRequest in
  let* rpFinish :=
    http_Post (getUrl c endpointAuthFinish) "application/json" finishRequestBody in
  let* respFinish :=
    check_err rpFinish
      ("", errors_New "could not initiate authentication finish request") in
  let* resultFinish :=
    ReadAll_Decode respFinish
      ("", errors_New "could not read from authentication finish request") in
  let authOkSignature := has_key resultFinish "signature" in
  let authOkToken := has_key resultFinish "token" in
  return_if (negb authOkSignature || negb authOkToken)
    ("", errors_New "authentication failed") ;;
  let* signatureStr := assert_string (resultFinish !! "signature") in
  let signature := b64_DecodeString P signatureStr in
  let* token := assert_string (resultFinish !! "token") in
  let cmpBytes := bytes_Compare signature (serverSignature d) in
  return_if (negb (cmpBytes =? 0)) ("", errors_New "signature check error") ;;
  let protocolKey := protocolKey d in
  let ivNonce := GenerateRandomBytes W 16 in
  return_on_err (aes_NewCipher protocolKey)
    (fun text => ("", errors_New ("cipher creation error " +:+ text))) ;;
  let* sealed := aesgcm_Seal protocolKey ivNonce (bytes_of_string token) in
  let* parts := split_tag sealed in
  let ciphertext := fst parts in
  let tag := snd parts in
  let createSessionRequest :=
    {| TransactionId := transactionId;
       Iv := b64.EncodeToString ivNonce;
       Tag := b64.EncodeToString tag;
       Payload := b64.EncodeToString ciphertext |} in
  let createSessionRequestBody := Marshal_session createSessionRequest in
  let* rpCreateSession :=
    http_Post (getUrl c endpointAuthCreateSession) "application/json"
      createSessionRequestBody in
  let* respCreateSession :=
    check_err rpCreateSession ("", errors_New "could not create session") in
  let* resultCreateSession :=
    ReadAll_Decode respCreateSession
      ("", errors_New "could not read from create session request") in
  let sessionId := resultCreateSession !! "sessionId" in
  let sessionOk := has_key resultCreateSession "sessionId" in
  return_if (negb sessionOk) ("", errors_New "session id not available") ;;
  let* id := assert_string sessionId in
  set_SessionId id ;;
  let* c := receiver in
  pure (SessionId c, None).

(** [func (c *AuthClient) Logout() (bool, error)] *)
Definition Logout : M (bool * error) (bool * error) :=
  let* c := receiver in
  let url := getUrl c "/api/v1/auth/logout" in
  return_on_err (http_NewRequest W "POST" url) (fun text => (false, Some text)) ;;
  let request :=
    {| Method := "POST"; URL := url;
       Header := [("Authorization", "Session " +:+ SessionId c)];
       ReqBody := [] |} in
  let* rp := send request in
  let failed :=
    match rp with
    | Failed _ => true
    | Answered response => negb (StatusCode response =? 200)
    end in
  return_if failed (false, errors_New "logout error") ;;
  set_SessionId "" ;;
  pure (true, None).

End Client.

(** A call of [c.Login()] and of [c.Logout()] on a client [c], after the
    exchanges [log]. *)
Definition call_Login (P : Primitives) (W : World) (c : AuthClient)
  (log : list Exchange) : outcome (string * error) * State :=
  call (Login P W) {| client := c; exchanges := log |}.

Definition call_Logout (W : World) (c : AuthClient) (log : list Exchange)
  : outcome (bool * error) * State :=
  call (Logout W) {| client := c; exchanges := log |}.


(** ** Vocabulary for the statements *)

Section Run.

Variable P : Primitives.
Variable W : World.
Variable c : AuthClient.
Variable log : list Exchange.

(** The calls of the HTTP client a method adds to the log. *)
Definition issued (st : State) : list Exchange :=
  skipn (length log) (exchanges st).

(** The HTTP client was called with the URL of the path [request] of the
    inverter. *)
Definition posted_to (request : string) (l : list Exchange) : Prop :=
  exists x, In x l /\ URL (fst x) = getUrl c request.

Definition post (url : string) (body : list (string * string)) : Request :=
  {| Method := "POST"; URL := url;
     Header := [("Content-Type", "application/json")]; ReqBody := body |}.

(** The nonce the client sends, and the AuthStart request. *)
Definition base64String : string :=
  b64.EncodeToString (bytes_of_string (RandSeq W 12)).

Definition start_request : Request :=
  post (getUrl c endpointAuthStart)
       (Marshal_start {| Nonce := base64String; Username := "user" |}).

(** The four fields [Login] reads from the AuthStart answer. *)
Record StartFields := {
  serverNonce : string;
  roundsFloat : spec_float;
  serverSalt : string;
  transactionId : string
}.

Definition rounds (a : StartFields) : Z := int64_of_float64 P (roundsFloat a).

Definition has_start_fields (result : gmap string json) (a : StartFields) : Prop :=
  result !! "nonce" = Some (JString (serverNonce a)) /\
  result !! "rounds" = Some (JNumber (roundsFloat a)) /\
  result !! "salt" = Some (JString (serverSalt a)) /\
  result !! "transactionId" = Some (JString (transactionId a)).

(** The first request was answered with a readable body [result]. *)
Definition start_answered (resp : Response) (result : gmap string json) : Prop :=
  http_Do W log start_request = Answered resp /\ Body resp = Some result.

(** The keys [Login] derives from the fields [a], and the AuthFinish
    request it makes from them. *)
Definition derived (a : StartFields) : Derived :=
  derive P (Password c) "user" base64String (serverNonce a) (serverSalt a) (rounds a).

Definition finish_request (a : StartFields) : Request :=
  post (getUrl c endpointAuthFinish)
       (Marshal_finish {| Finish_TransactionId := transactionId a;
                          Proof_ := clientProof (derived a) |}).

(** The AuthStart answer [resp] carried the fields [a], and the AuthFinish
    request was answered by [respFinish] with the readable body
    [resultFinish]. *)
Definition finish_answered (resp : Response) (a : StartFields)
  (respFinish : Response) (resultFinish : gmap string json) : Prop :=
  (exists result, start_answered resp result /\ has_start_fields result a) /\
  http_Do W (log ++ [(start_request, Answered resp)]) (finish_request a)
    = Answered respFinish /\
  Body respFinish = Some resultFinish.

(** The CreateSession request for the fields [a] and the token [token]. *)
Definition session_request (a : StartFields) (token : string) : Request :=
  let ivNonce := GenerateRandomBytes W 16 in
  let sealed := gcm_Seal P (protocolKey P (derived a)) ivNonce (bytes_of_string token) in
  let n := Z.to_nat (Z.of_nat (length sealed) - 16) in
  post (getUrl c endpointAuthCreateSession)
       (Marshal_session {| TransactionId := transactionId a;
                           Iv := b64.EncodeToString ivNonce;
                           Tag := b64.EncodeToString (skipn n sealed);
                           Payload := b64.EncodeToString (firstn n sealed) |}).

(** The request of [Logout]. *)
Definition logout_request : Request :=
  {| Method := "POST"; URL := getUrl c "/api/v1/auth/logout";
     Header := [("Authorization", "Session " +:+ SessionId c)];
     ReqBody := [] |}.

(** The library primitives have the sizes of HMAC-SHA-256 and of AES-GCM
    (a 32-byte MAC, a 16-byte tag behind the ciphertext), and the random
    generator delivers the 16 bytes asked for. *)
Definition well_sized : Prop :=
  (forall key message, length (hmac_sha256 P key message) = 32%nat) /\
  (forall key nonce plaintext,
      length (gcm_Seal P key nonce plaintext) = (length plaintext + 16)%nat) /\
  length (GenerateRandomBytes W 16) = 16%nat.

End Run.

(** Occurrences of [sub] in [s]: the positions of [s] at which [sub] starts. *)
Fixpoint occurrences (sub s : string) : nat :=
  match s with
  | "" => if String.prefix sub "" then 1%nat else 0%nat
  | String _ rest =>
      ((if String.prefix sub s then 1 else 0) + occurrences sub rest)%nat
  end.

(** [s] holds the character [ch]. *)
Fixpoint holds (ch : ascii) (s : string) : bool :=
  match s with
  | "" => false
  | String x rest => Ascii.eqb x ch || holds ch rest
  end.

(** ** A stub inverter *)

(** Stand-ins with the right sizes for the primitives, and a peer scripted
    by its three answers, to run the client on concrete inputs. *)
Module Stub.

Definition pad32 (b : bytes) : bytes := firstn 32 (b ++ repeat x00 32)%list.

Definition primitives : Primitives := {|
  GetPBKDF2Hash := fun password salt _ => pad32 (bytes_of_string (password +:+ salt));
  GetHMACSHA256 := fun secret message => pad32 (bytes_of_string message ++ secret)%list;
  GetSHA256Hash := fun data => pad32 (rev data);
  CreateClientProof := fun sig key => b64.EncodeToString (sig ++ key)%list;
  hmac_sha256 := fun key message => pad32 (message ++ key)%list;
  gcm_Seal := fun key nonce plaintext =>
    (plaintext ++ firstn 16 (nonce ++ key ++ repeat x00 16))%list;
  b64_DecodeString := bytes_of_string;
  int64_unrepresentable := fun _ => - 2 ^ 63
|}.

Definition c0 : AuthClient :=
  {| Scheme := "http"; Server := "inverter"; Password := "changeme"; SessionId := "" |}.

Definition ok (body : gmap string json) : reply :=
  Answered {| StatusCode := 200; Body := Some body |}.

Definition world (start finish session logout : reply) : World := {|
  RandSeq := fun _ => "LbdaaizCLejX";
  GenerateRandomBytes := fun n => repeat x07 (Z.to_nat n);
  http_NewRequest := fun _ _ => None;
  http_Do := fun _ req =>
    if String.eqb (URL req) (getUrl c0 endpointAuthStart) then start
    else if String.eqb (URL req) (getUrl c0 endpointAuthFinish) then finish
    else if String.eqb (URL req) (getUrl c0 endpointAuthCreateSession) then session
    else logout
|}.

Definition down : reply := Failed "connection refused".

(** The AuthStart answer of the happy-path fixture, with a choice of the
    value under [rounds]. *)
Definition start_body (r : json) : gmap string json :=
  <["nonce" := JString "SrvNonce-xyz"]>
    (<["rounds" := r]>
      (<["salt" := JString "MDEyMzQ1Njc4OUFCQ0RFRg=="]>
        (<["transactionId" := JString "tx-1"]> ∅))).

(** 20000.0 and 29000.0 as binary64 values. *)
Definition f20000 : spec_float := S754_finite false 5497558138880000 (-38).
Definition f29000 : spec_float := S754_finite false 7971459301376000 (-38).

Definition fields : StartFields :=
  {| serverNonce := "SrvNonce-xyz"; roundsFloat := f20000;
     serverSalt := "MDEyMzQ1Njc4OUFCQ0RFRg=="; transactionId := "tx-1" |}.

(** The signature the peer should present. *)
Definition signature : bytes :=
  serverSignature (derived primitives (world down down down down) c0 fields).

(** [b] with the lowest bit of its byte number [i] flipped. *)
Fixpoint flip_at (i : nat) (b : bytes) : bytes :=
  match b, i with
  | [], _ => []
  | x :: r, O =>
      match Byte.of_N (N.lxor (Byte.to_N x) 1) with
      | Some y => y :: r
      | None => x :: r
      end
  | x :: r, S i' => x :: flip_at i' r
  end.

Definition finish_body (sig : bytes) : gmap string json :=
  <["signature" := JString (string_of_bytes sig)]> (<["token" := JString "tok"]> ∅).

Definition session_body : gmap string json := <["sessionId" := JString "sess-1"]> ∅.

Definition resp (body : gmap string json) : Response :=
  {| StatusCode := 200; Body := Some body |}.

(** The scenarios: an honest peer, one that presents a signature with one
    bit flipped, one that rejects the password, one that sends [rounds] as a
    string, and one that sends an empty object. *)
Definition honest : World :=
  world (ok (start_body (JNumber f20000))) (ok (finish_body signature))
        (ok session_body) (ok ∅).

Definition tampered : World :=
  world (ok (start_body (JNumber f20000))) (ok (finish_body (flip_at 31 signature)))
        (ok session_body) (ok ∅).

Definition wrong_password : World :=
  world (ok (start_body (JNumber f20000)))
        (Answered {| StatusCode := 200;
                     Body := Some (<["error" := JString "bad"]> ∅) |})
        (ok session_body) (ok ∅).

Definition malformed_rounds : World :=
  world (ok (start_body (JString "many"))) down down down.

Definition empty_start : World := world (ok ∅) down down down.

Definition unreachable : World := world down down down down.

Definition logged_in : AuthClient :=
  {| Scheme := "http"; Server := "inverter"; Password := "changeme";
     SessionId := "sess-1" |}.

End Stub.

(** ** Vocabulary for the later stages of Login *)

(** [c] with another session id. *)
Definition with_SessionId (c : AuthClient) (id : string) : AuthClient :=
  {| Scheme := Scheme c; Server := Server c; Password := Password c;
     SessionId := id |}.

Definition is_JString (v : json) : bool :=
  match v with JString _ => true | _ => false end.

Section Handshake.

Variable P : Primitives.
Variable W : World.
Variable c : AuthClient.
Variable log : list Exchange.

(** The log after the two exchanges of the handshake. *)
Definition handshake (resp : Response) (a : StartFields) (respFinish : Response)
  : list Exchange :=
  (log ++ [(start_request W c, Answered resp);
           (finish_request P W c a, Answered respFinish)])%list.

(** The AuthFinish answer carried the signature the client computed and
    the token [token]. *)
Definition signature_accepted (resp : Response) (a : StartFields)
  (respFinish : Response) (token : string) : Prop :=
  exists resultFinish signatureStr,
    finish_answered P W c log resp a respFinish resultFinish /\
    resultFinish !! "signature" = Some (JString signatureStr) /\
    resultFinish !! "token" = Some (JString token) /\
    b64_DecodeString P signatureStr = serverSignature (derived P W c a).

(** What the peer answers to the CreateSession request. *)
Definition session_reply (resp : Response) (a : StartFields)
  (respFinish : Response) (token : string) : reply :=
  http_Do W (handshake resp a respFinish) (session_request P W c a token).

(** The three exchanges of a complete run. *)
Definition complete_run (resp : Response) (a : StartFields)
  (respFinish : Response) (token : string) : list Exchange :=
  (handshake resp a respFinish
     ++ [(session_request P W c a token, session_reply resp a respFinish token)])%list.

End Handshake.

(** The URLs of the three endpoints, in the order of the protocol. *)
Definition endpoints (c : AuthClient) : list string :=
  [getUrl c endpointAuthStart; getUrl c endpointAuthFinish;
   getUrl c endpointAuthCreateSession].

(** What the peer answers to the AuthFinish request made from [a]. *)
Definition finish_reply (P : Primitives) (W : World) (c : AuthClient)
  (log : list Exchange) (resp : Response) (a : StartFields) : reply :=
  http_Do W (log ++ [(start_request W c, Answered resp)])%list
          (finish_request P W c a).

(** ** More answers of the stub inverter *)

Module Scenario.

(** A peer that is honest up to the AuthFinish answer and then answers the
    CreateSession request with [session]. *)
Definition after_handshake (session : reply) : World :=
  Stub.world (Stub.ok (Stub.start_body (JNumber Stub.f20000)))
             (Stub.ok (Stub.finish_body Stub.signature)) session (Stub.ok ∅).

Definition unreadable : reply := Answered {| StatusCode := 200; Body := None |}.

(** The honest peer with a random generator that fails and hands out no
    bytes. *)
Definition no_entropy : World := {|
  RandSeq := RandSeq Stub.honest;
  GenerateRandomBytes := fun _ => [];
  http_NewRequest := http_NewRequest Stub.honest;
  http_Do := http_Do Stub.honest
|}.

(** An AuthFinish answer whose [signature] is JSON [null]. *)
Definition null_signature : World :=
  Stub.world (Stub.ok (Stub.start_body (JNumber Stub.f20000)))
             (Stub.ok (<["signature" := JNull]> (<["token" := JString "tok"]> ∅)))
             (Stub.ok Stub.session_body) (Stub.ok ∅).

Definition start_only (finish : reply) : World :=
  Stub.world (Stub.ok (Stub.start_body (JNumber Stub.f20000))) finish
             Stub.down Stub.down.

(** An AuthFinish answer with the right [signature] beside a [token] that is
    a JSON number. *)
Definition numeric_token_body : gmap string json :=
  <["signature" := JString (string_of_bytes Stub.signature)]>
    (<["token" := JNumber Stub.f20000]> ∅).

Definition numeric_token : World :=
  Stub.world (Stub.ok (Stub.start_body (JNumber Stub.f20000)))
             (Stub.ok numeric_token_body)
             (Stub.ok Stub.session_body) (Stub.ok ∅).

End Scenario.

(** * The command line (package [cmd]) *)

(** ** strings and fmt for the commands *)

Module strings.

(** [strings.Contains(s, sep)] and [strings.Split(s, sep)] for a separator
    of one byte, as all separators of the commands are (["|"] and [","]).
    [Split] never returns an empty slice: a text without the separator, the
    empty text included, comes back as its only element. *)
Definition Contains (s : string) (sep : ascii) : bool := holds sep s.

Fixpoint Split (s : string) (sep : ascii) : list string :=
  match s with
  | "" => [""]
  | String ch rest =>
      if Ascii.eqb ch sep then "" :: Split rest sep
      else match Split rest sep with
           | first :: others => String ch first :: others
           | [] => [String ch ""]
           end
  end.

(** [strings.Join(elems, sep)] *)
Fixpoint Join (elems : list string) (sep : string) : string :=
  match elems with
  | [] => ""
  | [e] => e
  | e :: rest => e +:+ sep +:+ Join rest sep
  end.

End strings.

Module console.

Definition nl : string := String "010" "".
Definition tab : string := String "009" "".

(** [fmt.Println(operands...)]: the operands in their default format,
    always separated by one space, and a newline. *)
Definition Println (operands : list string) : string :=
  strings.Join operands " " +:+ nl.

(** A slice of strings in its default format, [[a b c]]. *)
Definition format_slice (l : list string) : string :=
  "[" +:+ strings.Join l " " +:+ "]".

End console.

(** ** The commands *)

Module cmd.

(** The flag variables of the package: [authData] (of which the commands
    read [Scheme], [Server] and [Password]), the two CSV switches
    ([csvOutput] of processdata, [outputCSV] of settings) and [delimiter]. *)
Record Globals := {
  authData : AuthClient;
  csvOutput : bool;
  outputCSV : bool;
  delimiter : string
}.

(** The data types of package [golrackpi] the commands use, with the fields
    they read.  [ProcessData] is built by [getMultProcessdata] from strings;
    the identifiers and units are printed with [%s]; the type of a process
    data value is not fixed here. *)
Record ProcessData := { ModuleId : string; ProcessDataIds : list string }.
Record SettingId := { Setting_Id : string }.
Record SettingsData := { Settings_ModuleId : string; Settings_ : list SettingId }.
Record SettingsValues := { Id : string; Value : string }.
Record ProcessDataValue (V : Type) := { PD_Id : string; PD_Unit : string; PD_Value : V }.
Record ProcessDataValues (V : Type) := {
  PDV_ModuleId : string;
  PDV_ProcessData : list (ProcessDataValue V)
}.
Arguments PD_Id {V} _.
Arguments PD_Unit {V} _.
Arguments PD_Value {V} _.
Arguments PDV_ModuleId {V} _.
Arguments PDV_ProcessData {V} _.

(** What a command leaves behind: the text written to standard output, call
    by call, the exchanges with the inverter, and the message of the panic
    when the process died of one. *)
Record Run := {
  stdout : list string;
  network : list Exchange;
  crash : option string
}.

Section Commands.

Variable P : Primitives.
Variable W : World.
Variable V : Type.

(** A data method of the library: it works on the client and the
    connection and returns its values with an error, or panics. *)
Definition method (T : Type) : Type := State -> outcome (T * error) * State.

(** The data methods of [*AuthClient] the commands call; their code is
    outside this file.  [format_Value] is the default format of a process
    data value. *)
Record Library := {
  Settings : method (list SettingsData);
  SettingsModule : string -> method (list SettingsValues);
  SettingsModuleSetting : string -> string -> method (list SettingsValues);
  SettingsModuleSettings : string -> list string -> method (list SettingsValues);
  ProcessData_ : method (list ProcessData);
  ProcessDataValues_ : list ProcessData -> method (list (ProcessDataValues V));
  ProcessDataModuleValues : string -> list string -> method (list (ProcessDataValues V));
  format_Value : V -> string
}.

Variable L : Library.
Variable G : Globals.
Variable log : list Exchange.

(** [golrackpi.NewWithParameter(golrackpi.AuthClient{Scheme: authData.Scheme,
    Server: authData.Server, Password: authData.Password})] *)
Definition lib : AuthClient :=
  NewWithParameter {| Scheme := Scheme (authData G); Server := Server (authData G);
                      Password := Password (authData G); SessionId := "" |}.

(** A command that returns before it touches the network. *)
Definition say (lines : list string) : Run :=
  {| stdout := lines; network := log; crash := None |}.

(** The end of a function body: what it printed, the state of the library
    and whether it panicked. *)
Definition finished (lines : list string) (st : State) : Run :=
  {| stdout := lines; network := exchanges st; crash := None |}.

Definition panicked (lines : list string) (st : State) (msg : string) : Run :=
  {| stdout := lines; network := exchanges st; crash := Some msg |}.

(** [defer lib.Logout()]: when the body is left, by return or by panic, the
    logout runs on the library as the body left it; its results are
    dropped. *)
Definition deferred_Logout (body : list string * State * option string) : Run :=
  let '(lines, st, died) := body in
  let st' := snd (call_Logout W (client st) (exchanges st)) in
  {| stdout := lines; network := exchanges st'; crash := died |}.

Definition error_line (text : string) : string :=
  console.Println ["An error occurred:"; text].

(** The call of a data method, its error check and the printing of the
    values, as every command ends. *)
Definition fetch_and_print {T : Type} (call : method T) (print : T -> list string)
  (st : State) : list string * State * option string :=
  match call st with
  | (Panic msg, st') => ([], st', Some msg)
  | (Returned (_, Some text), st') => ([error_line text], st', None)
  | (Returned (values, None), st') => (print values, st', None)
  end.

(** [writeSettingValues] *)
Definition writeSettingValues (values : list SettingsValues) : list string :=
  if outputCSV G then
    fmt.Sprintf ("Id%sValue" +:+ console.nl) [fmt.String_ (delimiter G)]
    :: map (fun v =>
              fmt.Sprintf ("%s%s%s" +:+ console.nl)
                [fmt.String_ (Id v); fmt.String_ (delimiter G); fmt.String_ (Value v)])
           values
  else
    console.Println ["Id" +:+ console.tab +:+ "Value"]
    :: map (fun v =>
              fmt.Sprintf ("%s" +:+ console.tab +:+ "%s" +:+ console.nl)
                [fmt.String_ (Id v); fmt.String_ (Value v)])
           values.


(** The body shared by the other commands after their argument checks:
    login, error check, deferred logout, data call. *)
Definition logged_in {T : Type} (call : method T) (print : T -> list string)
  (before : list string) : Run :=
  match call_Login P W lib log with
  | (Panic msg, st) => panicked before st msg
  | (Returned (_, Some text), st) => finished (before ++ [error_line text]) st
  | (Returned (_, None), st) =>
      let r := deferred_Logout (fetch_and_print call print st) in
      {| stdout := before ++ stdout r; network := network r; crash := crash r |}
  end.

(** [getSettingsModule] *)
Definition getSettingsModule (args : list string) : Run :=
  if (length args <? 1)%nat then say [console.Println ["Please submit a moduleid."]]
  else if (1 <? length args)%nat then
    say [console.Println ["Please submit only one moduleid."]]
  else
    let moduleId := nth 0 args "" in
    logged_in (SettingsModule L moduleId) writeSettingValues [].

(** [getSettingsModuleSetting] *)
Definition getSettingsModuleSetting (args : list string) : Run :=
  if (length args <? 2)%nat then
    say [console.Println ["Please submit a moduleid and a settingid."]]
  else if (2 <? length args)%nat then
    say [console.Println ["Please submit only one moduleid with its settingid."]]
  else
    let moduleId := nth 0 args "" in
    let settingId := nth 1 args "" in
    logged_in (SettingsModuleSetting L moduleId settingId) writeSettingValues [].

(** [getSettingsModuleSettings] *)
Definition getSettingsModuleSettings (args : list string) : Run :=
  if (length args <? 2)%nat then
    say [console.Println
           ["Please submit a moduleid and s comma-separated list of settingids."]]
  else if (2 <? length args)%nat then
    say [console.Println
           ["Please submit only one moduleid with its settingids as comma-separated list."]]
  else
    let settingIds := strings.Split (nth 1 args "") "," in
    let moduleId := nth 0 args "" in
    logged_in (SettingsModuleSettings L moduleId settingIds) writeSettingValues [].

(** [handleSettings], [handleProcessdata] *)
Definition handleSettings : Run :=
  say [console.Println
         [console.nl +:+ "Unknown or missing command." +:+ console.nl
            +:+ "Run golrackpi settings --help to show available commands."]].

Definition handleProcessdata : Run :=
  say [console.Println
         [console.nl +:+ "Unknown or missing command." +:+ console.nl
            +:+ "Run golrackpi processdata --help to show available commands."]].


(** The printing of process data values that ends [getMultProcessdata] and
    [getProcessdata]. *)
Definition print_values (processDataValues : list (ProcessDataValues V)) : list string :=
  if csvOutput G then
    fmt.Sprintf
      ("Module%sProcessdata Id%sProcessdata Unit%sProcessdata Value" +:+ console.nl)
      [fmt.String_ (delimiter G); fmt.String_ (delimiter G); fmt.String_ (delimiter G)]
    :: flat_map (fun pdv =>
         map (fun pd =>
                fmt.Sprintf ("%s%s%s%s%s%s%v" +:+ console.nl)
                  [fmt.String_ (PDV_ModuleId pdv); fmt.String_ (delimiter G);
                   fmt.String_ (PD_Id pd); fmt.String_ (delimiter G);
                   fmt.String_ (PD_Unit pd); fmt.String_ (delimiter G);
                   fmt.String_ (format_Value L (PD_Value pd))])
             (PDV_ProcessData pdv))
       processDataValues
  else
    flat_map (fun pdv =>
      console.Println ["Module:"; PDV_ModuleId pdv]
      :: map (fun pd =>
                console.Println [PD_Id pd; console.tab; PD_Unit pd; console.tab;
                                 format_Value L (PD_Value pd)])
             (PDV_ProcessData pdv)
      ++ [console.Println []])
    processDataValues.

(** The loop of [getMultProcessdata] over arguments of the form
    [module|id,id,...]: [None] when one of them does not split in two at
    the bar. *)
Fixpoint split_arguments (args : list string) (requestProcessData : list ProcessData)
  : option (list ProcessData) :=
  match args with
  | [] => Some requestProcessData
  | argModuleProcessdata :: rest =>
      let moduleProcessdata := strings.Split argModuleProcessdata "|" in
      if negb (length moduleProcessdata =? 2)%nat then None
      else
        let argModuleId := nth 0 moduleProcessdata "" in
        let processdataIds := strings.Split (nth 1 moduleProcessdata "") "," in
        let v := {| ModuleId := argModuleId; ProcessDataIds := processdataIds |} in
        split_arguments rest (requestProcessData ++ [v])
  end.

(** [getMultProcessdata] *)
Definition getMultProcessdata (args : list string) : Run :=
  match args with
  | [] =>
      {| stdout := []; network := log;
         crash := Some "runtime error: index out of range [0] with length 0" |}
  | arg0 :: _ =>
      if strings.Contains arg0 "|" then
        match split_arguments args [] with
        | None =>
            say [console.Println ["Wrong format of moduleid and processdataid values."]]
        | Some requestProcessData =>
            logged_in (ProcessDataValues_ L requestProcessData) print_values []
        end
      else if (length args =? 2)%nat then
        let moduleIds := strings.Split arg0 "," in
        let processdataIds := strings.Split (nth 1 args "") "," in
        let printed :=
          [console.Println ["moduleids:"; console.format_slice moduleIds];
           console.Println ["processdataids:"; console.format_slice processdataIds]] in
        if (1 <? length moduleIds)%nat then
          say (printed ++ [console.Println ["Please enter only one moduleid."]])
        else
          let v := {| ModuleId := nth 0 moduleIds ""; ProcessDataIds := processdataIds |} in
          logged_in (ProcessDataValues_ L [v]) print_values printed
      else
        say [console.Println
               ["Please submit module and processdata in an appropriate format."]]
  end.

(** [getProcessdata] *)
Definition getProcessdata (args : list string) : Run :=
  match args with
  | [] =>
      {| stdout := []; network := log;
         crash := Some "runtime error: index out of range [0] with length 0" |}
  | moduleId :: processDataIds =>
      logged_in (ProcessDataModuleValues L moduleId processDataIds) print_values []
  end.

End Commands.

Arguments Settings {V} _ _.
Arguments SettingsModule {V} _ _ _.
Arguments SettingsModuleSetting {V} _ _ _ _.
Arguments SettingsModuleSettings {V} _ _ _ _.
Arguments ProcessData_ {V} _ _.
Arguments ProcessDataValues_ {V} _ _ _.
Arguments ProcessDataModuleValues {V} _ _ _ _.
Arguments format_Value {V} _ _.

End cmd.

(** * Me *)

Module me.

(** What [Me] finds in the body of an answer: the stream cannot be read,
    the text is not JSON, or it decodes to a value.  The texts are those of
    the errors of [ioutil.ReadAll] and [json.Unmarshal]. *)
Inductive content :=
| ReadError (text : string)
| SyntaxError (text : string)
| Decoded (v : json).

Record Answer := { Status : Z; Content : content }.

(** The two results of [client.Do]. *)
Inductive done :=
| DoError (text : string)
| DoAnswer (response : Answer).

Record Transport := {
  NewRequest : string -> string -> error;
  Do : Request -> done
}.

(** A decoded JSON object as a Go map: of two members with the same name
    the later one stays. *)
Definition to_map (members : list (string * json)) : gmap string json :=
  list_to_map (rev members).

(** What a call leaves behind: the lines printed, the requests handed to
    [client.Do] (one entry for each call of [client.Do], whatever that call
    sends over the network), and the results or the panic. *)
Record Run := {
  printed : list string;
  sent : list Request;
  results : outcome (gmap string json * error)
}.

Definition me_request (c : AuthClient) : Request :=
  {| Method := "GET"; URL := getUrl c "/api/v1/auth/me";
     Header := [("Authorization", "Session " +:+ SessionId c)];
     ReqBody := [] |}.

(** [func (c *AuthClient) Me() (map[string]interface{}, error)].  The error
    of [http.NewRequest] is printed and the function goes on with the nil
    request, whose [Header] cannot be reached. *)
Definition Me (T : Transport) (c : AuthClient) : Run :=
  let result : gmap string json := ∅ in
  match NewRequest T "GET" (getUrl c "/api/v1/auth/me") with
  | Some text =>
      {| printed := [console.Println [text]]; sent := [];
         results :=
           Panic "runtime error: invalid memory address or nil pointer dereference" |}
  | None =>
      let request := me_request c in
      {| printed := []; sent := [request];
         results :=
           match Do T request with
           | DoError text => Returned (result, Some text)
           | DoAnswer response =>
               match Content response with
               | ReadError text => Returned (result, Some text)
               | SyntaxError text => Returned (result, Some text)
               | Decoded (JObject members) => Returned (to_map members, None)
               | Decoded _ => Returned (result, errors_New "could not read response")
               end
           end |}
  end.

(** A transport that answers the request to [url] with [answer]. *)
Definition answering (answer : done) : Transport :=
  {| NewRequest := fun _ _ => None; Do := fun _ => answer |}.

End me.

(** ** A library and flags to run the commands *)

Module Demo.

Definition settings_values : list cmd.SettingsValues :=
  [{| cmd.Id := "Battery:MinSoc"; cmd.Value := "5" |};
   {| cmd.Id := "Inverter:MaxApparentPower"; cmd.Value := "5500" |}].

Definition values : list (cmd.ProcessDataValues Z) :=
  [{| cmd.PDV_ModuleId := "devices:local";
      cmd.PDV_ProcessData :=
        [{| cmd.PD_Id := "Dc_P"; cmd.PD_Unit := "W"; cmd.PD_Value := 1200 |}] |}].

(** Data methods that answer from a table and leave the client and the
    connection alone; [ProcessDataModuleValues] fails for an unknown
    module. *)
Definition library : cmd.Library Z := {|
  cmd.Settings := fun st => (Returned ([], None), st);
  cmd.SettingsModule := fun _ st => (Returned (settings_values, None), st);
  cmd.SettingsModuleSetting := fun _ _ st => (Returned (settings_values, None), st);
  cmd.SettingsModuleSettings := fun _ _ st => (Returned (settings_values, None), st);
  cmd.ProcessData_ := fun st => (Returned ([], None), st);
  cmd.ProcessDataValues_ := fun _ st => (Returned (values, None), st);
  cmd.ProcessDataModuleValues := fun moduleId _ st =>
    if String.eqb moduleId "devices:local" then (Returned (values, None), st)
    else (Returned ([], errors_New "module or processdata not found"), st);
  cmd.format_Value := fmt.FormatInt
|}.

Definition globals : cmd.Globals := {|
  cmd.authData := Stub.c0;
  cmd.csvOutput := true;
  cmd.outputCSV := true;
  cmd.delimiter := ","
|}.

End Demo.

(** * Properties *)

(** ** bytes.Compare decides equality *)

Lemma byte_to_N_inj (x y : byte) : Byte.to_N x = Byte.to_N y -> x = y.
Proof.
  intros H. pose proof (Byte.of_to_N x) as Hx. rewrite H, Byte.of_to_N in Hx.
  congruence.
Qed.

Lemma Compare_loop_zero (a b : bytes) (i : nat) :
  fst (Compare_loop a b i) = 0 <-> a = b.
Proof.
  revert b i. induction a as [| x a IH]; intros [| y b] i; cbn.
  - tauto.
  - split; discriminate.
  - split; discriminate.
  - destruct (N.ltb_spec (Byte.to_N x) (Byte.to_N y)) as [Hlt | Hge].
    + cbn. split; [discriminate |]. intros [= -> _]. lia.
    + destruct (N.ltb_spec (Byte.to_N y) (Byte.to_N x)) as [Hgt | Hle].
      * cbn. split; [discriminate |]. intros [= -> _]. lia.
      * assert (x = y) as -> by (apply byte_to_N_inj; lia).
        rewrite IH. split; [intros -> | intros [= ->]]; reflexivity.
Qed.

Lemma bytes_Compare_zero (a b : bytes) : bytes_Compare a b = 0 <-> a = b.
Proof. apply Compare_loop_zero. Qed.

Lemma bytes_Compare_same (a : bytes) : negb (bytes_Compare a a =? 0) = false.
Proof. rewrite (proj2 (bytes_Compare_zero a a) eq_refl). reflexivity. Qed.

Lemma bytes_Compare_differ (a b : bytes) :
  a <> b -> negb (bytes_Compare a b =? 0) = true.
Proof.
  intros Hne. destruct (Z.eqb_spec (bytes_Compare a b) 0) as [H0 | ]; [| reflexivity].
  apply bytes_Compare_zero in H0. contradiction.
Qed.

(** ** URLs of the three endpoints *)

Lemma append_inj_l (s a b : string) : s +:+ a = s +:+ b -> a = b.
Proof. induction s as [| x s IH]; cbn; [tauto |]. intros [= H]. auto. Qed.

Lemma getUrl_inj (c : AuthClient) (r1 r2 : string) :
  getUrl c r1 = getUrl c r2 -> r1 = r2.
Proof.
  unfold getUrl. intros H.
  repeat (apply append_inj_l in H). exact H.
Qed.

(** ** The runs of Login, stage by stage *)

Ltac unfold_call :=
  cbv beta iota zeta delta
    [call_Login call_Logout call Login Logout bind pure return_ panic return_if
     return_on_err receiver set_SessionId send http_Post check_err
     ReadAll_Decode assert_string assert_float64 has_key client exchanges
     aesgcm_Seal split_tag fst snd Nonce Username].

Ltac unfold_run :=
  unfold finish_answered, start_answered, has_start_fields, session_request,
    finish_request, start_request, logout_request, derived, rounds, post,
    base64String in *;
  cbn [serverNonce roundsFloat serverSalt transactionId URL] in *.

(** One step along the body: case analysis on what the next statement
    inspects, discarding the cases the hypotheses rule out. *)
Ltac case_scrutinee :=
  match goal with
  | |- context [match ?x with _ => _ end] =>
      lazymatch x with
      | context [match _ with _ => _ end] => fail
      | _ => destruct x eqn:?
      end
  end.

Ltac run_body :=
  unfold_call; unfold_run;
  repeat first [ progress cbn [negb orb andb]
               | case_scrutinee; simplify_eq; try congruence ].

Ltac drop_log := rewrite <- ?app_assoc, ?drop_app_length; cbn [app].

Lemma aes_NewCipher_32 (key : bytes) : length key = 32%nat -> aes_NewCipher key = None.
Proof. unfold aes_NewCipher. intros ->. reflexivity. Qed.

Section Stages.

Variable P : Primitives.
Variable W : World.
Variable c : AuthClient.
Variable log : list Exchange.

(** If the fields of AuthStart are there, the AuthFinish request follows. *)
Lemma Login_finish_issued resp result a :
  start_answered W c log resp result ->
  has_start_fields result a ->
  exists rest,
    issued log (snd (call_Login P W c log)) =
      (start_request W c, Answered resp)
      :: (finish_request P W c a,
          http_Do W (log ++ [(start_request W c, Answered resp)])
                  (finish_request P W c a))
      :: rest.
Proof.
  intros [Hdo Hbody] (Hn & Hr & Hs & Ht). destruct a as [sn rf ss ti].
  unfold issued. run_body.
  all: drop_log; eauto.
Qed.

(** A signature that differs ends the call after two exchanges. *)
Lemma Login_signature_mismatch resp a respFinish resultFinish signatureStr token :
  finish_answered P W c log resp a respFinish resultFinish ->
  resultFinish !! "signature" = Some (JString signatureStr) ->
  resultFinish !! "token" = Some (JString token) ->
  b64_DecodeString P signatureStr <> serverSignature (derived P W c a) ->
  call_Login P W c log =
    (Returned ("", errors_New "signature check error"),
     {| client := c;
        exchanges := log ++ [(start_request W c, Answered resp);
                             (finish_request P W c a, Answered respFinish)] |}).
Proof.
  intros ((result & [Hdo Hbody] & (Hn & Hr & Hs & Ht)) & HdoF & HbodyF) Hsig Htok Hne.
  apply bytes_Compare_differ in Hne.
  destruct a as [sn rf ss ti]. run_body.
  rewrite <- app_assoc. reflexivity.
Qed.

(** A signature that agrees leads to the CreateSession request. *)
Lemma Login_session_issued resp a respFinish resultFinish signatureStr token :
  well_sized P W ->
  finish_answered P W c log resp a respFinish resultFinish ->
  resultFinish !! "signature" = Some (JString signatureStr) ->
  resultFinish !! "token" = Some (JString token) ->
  b64_DecodeString P signatureStr = serverSignature (derived P W c a) ->
  let before := (log ++ [(start_request W c, Answered resp);
                         (finish_request P W c a, Answered respFinish)])%list in
  exchanges (snd (call_Login P W c log)) =
    (before ++ [(session_request P W c a token,
                 http_Do W before (session_request P W c a token))])%list.
Proof.
  intros (Hmac & Hseal & Hiv)
         ((result & [Hdo Hbody] & (Hn & Hr & Hs & Ht)) & HdoF & HbodyF)
         Hsig Htok Heq before.
  pose proof (bytes_Compare_same (serverSignature (derived P W c a))) as Hcmp.
  rewrite <- Heq in Hcmp at 1.
  assert (Hkey : forall d, aes_NewCipher (protocolKey P d) = None)
    by (intros d; apply aes_NewCipher_32, Hmac).
  assert (Hivb : (Z.of_nat (length (GenerateRandomBytes W 16)) =? 16) = true)
    by (rewrite Hiv; reflexivity).
  assert (Htag : forall key nonce plaintext,
             (Z.of_nat (length (gcm_Seal P key nonce plaintext)) - 16 <? 0) = false)
    by (intros; rewrite Hseal; apply Z.ltb_ge; lia).
  subst before.
  replace (log ++ [(start_request W c, Answered resp);
                   (finish_request P W c a, Answered respFinish)])%list
    with ((log ++ [(start_request W c, Answered resp)])
            ++ [(finish_request P W c a, Answered respFinish)])%list
    by (rewrite <- app_assoc; reflexivity).
  destruct a as [sn rf ss ti].
  unfold_call; unfold_run.
  repeat first [ progress cbn [negb orb andb]
               | rewrite Hkey | rewrite Hivb | rewrite Htag
               | case_scrutinee; simplify_eq; try congruence ].
  all: reflexivity.
Qed.

End Stages.

Lemma endpoints_differ (c : AuthClient) (request : string) (l : list Exchange) :
  Forall (fun x => exists other, URL (fst x) = getUrl c other /\ other <> request) l ->
  ~ posted_to c request l.
Proof.
  intros Hall (x & Hin & Hurl).
  rewrite Forall_forall in Hall.
  destruct (Hall x (proj2 (list_elem_of_In _ _) Hin)) as (other & Hother & Hne).
  rewrite Hother in Hurl. apply getUrl_inj in Hurl. contradiction.
Qed.

Lemma start_finish_not_session P W c a (r1 r2 : reply) :
  ~ posted_to c endpointAuthCreateSession
      [(start_request W c, r1); (finish_request P W c a, r2)].
Proof.
  apply endpoints_differ. repeat constructor; cbn.
  - exists endpointAuthStart. split; [reflexivity | discriminate].
  - exists endpointAuthFinish. split; [reflexivity | discriminate].
Qed.

Lemma issued_app (log new : list Exchange) (c : AuthClient) :
  issued log {| client := c; exchanges := log ++ new |} = new.
Proof. unfold issued. cbn. apply drop_app_length. Qed.

(** ** The signature check *)

(** C8. When the signature decoded from the AuthFinish answer differs from
    the [serverSignature] the client computed, [Login] returns the error
    "signature check error", the call has made the AuthStart and AuthFinish
    requests and no request to create_session, and the client is left as it
    was, although the answer carried a token. *)
Theorem signature_mismatch_refused
  (P : Primitives) (W : World) (c : AuthClient) (log : list Exchange)
  (resp : Response) (a : StartFields) (respFinish : Response)
  (resultFinish : gmap string json) (signatureStr token : string) :
  finish_answered P W c log resp a respFinish resultFinish ->
  resultFinish !! "signature" = Some (JString signatureStr) ->
  resultFinish !! "token" = Some (JString token) ->
  b64_DecodeString P signatureStr <> serverSignature (derived P W c a) ->
  fst (call_Login P W c log) = Returned ("", errors_New "signature check error") /\
  issued log (snd (call_Login P W c log)) =
    [(start_request W c, Answered resp);
     (finish_request P W c a, Answered respFinish)] /\
  ~ posted_to c endpointAuthCreateSession (issued log (snd (call_Login P W c log))) /\
  client (snd (call_Login P W c log)) = c.
Proof.
  intros Hfin Hsig Htok Hne.
  rewrite (Login_signature_mismatch P W c log _ _ _ _ _ _ Hfin Hsig Htok Hne).
  cbn [fst snd client]. rewrite issued_app.
  repeat split. apply start_finish_not_session.
Qed.

Lemma Stub_tampered_finish :
  finish_answered Stub.primitives Stub.tampered Stub.c0 []
    (Stub.resp (Stub.start_body (JNumber Stub.f20000))) Stub.fields
    (Stub.resp (Stub.finish_body (Stub.flip_at 31 Stub.signature)))
    (Stub.finish_body (Stub.flip_at 31 Stub.signature)).
Proof.
  split; [exists (Stub.start_body (JNumber Stub.f20000)) |].
  - repeat split; vm_compute; reflexivity.
  - split; vm_compute; reflexivity.
Defined.

Lemma signature_mismatch_refused_witness :
  fst (call_Login Stub.primitives Stub.tampered Stub.c0 [])
    = Returned ("", errors_New "signature check error") /\
  issued [] (snd (call_Login Stub.primitives Stub.tampered Stub.c0 [])) =
    [(start_request Stub.tampered Stub.c0,
      Answered (Stub.resp (Stub.start_body (JNumber Stub.f20000))));
     (finish_request Stub.primitives Stub.tampered Stub.c0 Stub.fields,
      Answered (Stub.resp (Stub.finish_body (Stub.flip_at 31 Stub.signature))))] /\
  ~ posted_to Stub.c0 endpointAuthCreateSession
      (issued [] (snd (call_Login Stub.primitives Stub.tampered Stub.c0 []))) /\
  client (snd (call_Login Stub.primitives Stub.tampered Stub.c0 [])) = Stub.c0.
Proof.
  apply (signature_mismatch_refused Stub.primitives Stub.tampered Stub.c0 []
           (Stub.resp (Stub.start_body (JNumber Stub.f20000))) Stub.fields
           (Stub.resp (Stub.finish_body (Stub.flip_at 31 Stub.signature)))
           (Stub.finish_body (Stub.flip_at 31 Stub.signature))
           (string_of_bytes (Stub.flip_at 31 Stub.signature)) "tok").
  - exact Stub_tampered_finish.
  - vm_compute; reflexivity.
  - vm_compute; reflexivity.
  - vm_compute. discriminate.
Defined.

(** [bytes.Compare] stops at the first byte that differs: against the
    32-byte signature of the stub, a candidate wrong in its first byte is
    rejected after one iteration and a candidate wrong in its last byte after
    thirty-two, so the time of the comparison in [Login] is not fixed by the
    lengths of the two byte strings.  Nor do identical byte strings suffice
    for the create_session call: with the right signature beside a [token]
    that is a JSON number, and with the right signature and token but a
    random generator that hands out no bytes for the IV, [Login] panics after
    the two calls of the handshake. *)
Lemma signature_comparison_not_constant_time :
  length (Stub.flip_at 0 Stub.signature) = length (Stub.flip_at 31 Stub.signature) /\
  bytes_Compare_iterations (Stub.flip_at 0 Stub.signature) Stub.signature = 1%nat /\
  bytes_Compare_iterations (Stub.flip_at 31 Stub.signature) Stub.signature = 32%nat /\
  ~ constant_time bytes_Compare_iterations /\
  call_Login Stub.primitives Scenario.numeric_token Stub.c0 [] =
    (Panic "interface conversion: interface {} is float64, not string",
     {| client := Stub.c0;
        exchanges := handshake Stub.primitives Scenario.numeric_token Stub.c0 []
          (Stub.resp (Stub.start_body (JNumber Stub.f20000))) Stub.fields
          (Stub.resp Scenario.numeric_token_body) |}) /\
  call_Login Stub.primitives Scenario.no_entropy Stub.c0 [] =
    (Panic "crypto/cipher: incorrect nonce length given to GCM",
     {| client := Stub.c0;
        exchanges := handshake Stub.primitives Scenario.no_entropy Stub.c0 []
          (Stub.resp (Stub.start_body (JNumber Stub.f20000))) Stub.fields
          (Stub.resp (Stub.finish_body Stub.signature)) |}).
Proof.
  split; [vm_compute; reflexivity |].
  split; [vm_compute; reflexivity |].
  split; [vm_compute; reflexivity |].
  split; [| split; vm_compute; reflexivity].
  intros Hct.
  specialize (Hct (Stub.flip_at 0 Stub.signature) (Stub.flip_at 31 Stub.signature)
                  Stub.signature Stub.signature).
  vm_compute in Hct. specialize (Hct eq_refl eq_refl). discriminate Hct.
Qed.

Section AfterFinish.

Variable P : Primitives.
Variable W : World.
Variable c : AuthClient.
Variable log : list Exchange.

(** After a readable AuthFinish answer a call of [Login] ends in one of two
    ways: with the two calls of the handshake and no other, or with a third
    call, to create_session, and then the answer held a signature and a token
    that are JSON strings, the decoded signature is [serverSignature], and the
    random generator gave the 16 bytes of the IV. *)
Lemma Login_after_finish resp a respFinish resultFinish :
  (forall key message, length (hmac_sha256 P key message) = 32%nat) ->
  (forall key nonce plaintext,
     length (gcm_Seal P key nonce plaintext) = (length plaintext + 16)%nat) ->
  finish_answered P W c log resp a respFinish resultFinish ->
  issued log (snd (call_Login P W c log)) =
    [(start_request W c, Answered resp);
     (finish_request P W c a, Answered respFinish)] \/
  exists signatureStr token rp,
    resultFinish !! "signature" = Some (JString signatureStr) /\
    resultFinish !! "token" = Some (JString token) /\
    b64_DecodeString P signatureStr = serverSignature (derived P W c a) /\
    length (GenerateRandomBytes W 16) = 16%nat /\
    issued log (snd (call_Login P W c log)) =
      [(start_request W c, Answered resp);
       (finish_request P W c a, Answered respFinish);
       (session_request P W c a token, rp)].
Proof.
  intros Hmac Hseal ((result & [Hdo Hbody] & (Hn & Hr & Hs & Ht)) & HdoF & HbodyF).
  assert (Hkey : forall d, aes_NewCipher (protocolKey P d) = None)
    by (intros d; apply aes_NewCipher_32, Hmac).
  assert (Htag : forall key nonce plaintext,
             (Z.of_nat (length (gcm_Seal P key nonce plaintext)) - 16 <? 0) = false)
    by (intros; rewrite Hseal; apply Z.ltb_ge; lia).
  destruct a as [sn rf ss ti]. unfold issued.
  unfold_call; unfold_run.
  rewrite Hdo, Hbody, Hn, Hr, Hs, Ht, HdoF, HbodyF.
  repeat first [ progress cbn [negb orb andb] | rewrite Hkey | rewrite Htag
               | case_scrutinee ].
  all: rewrite <- ?app_assoc, drop_app_length; cbn [app].
  all: try (left; reflexivity).
  all: right; do 3 eexists; repeat split; try reflexivity.
  all: try match goal with
           | H : negb (bytes_Compare _ _ =? 0) = false |- _ =>
               apply negb_false_iff, Z.eqb_eq, bytes_Compare_zero in H; exact H
           end.
  all: match goal with
       | H : (Z.of_nat (length _) =? 16) = true |- _ => apply Z.eqb_eq in H; lia
       end.
Qed.

End AfterFinish.

(** C1 (as amended). [Login] compares the decoded signature of the AuthFinish
    answer with its own [serverSignature] through [bytes.Compare].  With
    HMAC-SHA-256 giving its 32 bytes and [Seal] of AES-GCM appending its
    16-byte tag, a call of [Login] that read the AuthStart fields and got a
    readable AuthFinish answer makes the create_session call exactly when
    that answer holds [signature] and [token] as JSON strings, the decoded
    signature and [serverSignature] are the same byte string, and the random
    generator gave the 16 bytes of the IV; and [bytes.Compare] returns 0
    exactly for identical byte strings. *)
Theorem create_session_iff_signature_equal
  (P : Primitives) (W : World) (c : AuthClient) (log : list Exchange)
  (resp : Response) (a : StartFields) (respFinish : Response)
  (resultFinish : gmap string json) :
  (forall key message, length (hmac_sha256 P key message) = 32%nat) ->
  (forall key nonce plaintext,
     length (gcm_Seal P key nonce plaintext) = (length plaintext + 16)%nat) ->
  finish_answered P W c log resp a respFinish resultFinish ->
  (posted_to c endpointAuthCreateSession (issued log (snd (call_Login P W c log)))
   <-> exists signatureStr token,
     resultFinish !! "signature" = Some (JString signatureStr) /\
     resultFinish !! "token" = Some (JString token) /\
     b64_DecodeString P signatureStr = serverSignature (derived P W c a) /\
     length (GenerateRandomBytes W 16) = 16%nat) /\
  (forall signatureStr,
     bytes_Compare (b64_DecodeString P signatureStr)
                   (serverSignature (derived P W c a)) = 0
     <-> b64_DecodeString P signatureStr = serverSignature (derived P W c a)).
Proof.
  intros Hmac Hseal Hfin. split; [| intros s; apply bytes_Compare_zero]. split.
  - intros Hposted.
    destruct (Login_after_finish P W c log _ _ _ _ Hmac Hseal Hfin)
      as [Htwo | (signatureStr & token & rp & Hsig & Htok & Heq & Hiv & _)].
    + rewrite Htwo in Hposted. destruct (start_finish_not_session P W c a _ _ Hposted).
    + eauto 6.
  - intros (signatureStr & token & Hsig & Htok & Heq & Hiv).
    assert (Hsize : well_sized P W) by (repeat split; assumption).
    pose proof (Login_session_issued P W c log _ _ _ _ _ _ Hsize Hfin Hsig Htok Heq)
      as Hlog.
    cbv zeta in Hlog. unfold issued. rewrite Hlog, <- app_assoc, drop_app_length.
    eexists. split.
    + apply in_app_iff. right. left. reflexivity.
    + reflexivity.
Qed.

Lemma Stub_sized (W : World) :
  GenerateRandomBytes W 16 = repeat x07 16 -> well_sized Stub.primitives W.
Proof.
  intros Hiv. repeat split.
  - intros key message. cbn [hmac_sha256 Stub.primitives]. unfold Stub.pad32.
    rewrite length_firstn, length_app, repeat_length. lia.
  - intros key nonce plaintext. cbn [gcm_Seal Stub.primitives].
    rewrite length_app, length_firstn, !length_app, repeat_length. lia.
  - rewrite Hiv. reflexivity.
Qed.

Lemma Stub_honest_finish :
  finish_answered Stub.primitives Stub.honest Stub.c0 []
    (Stub.resp (Stub.start_body (JNumber Stub.f20000))) Stub.fields
    (Stub.resp (Stub.finish_body Stub.signature))
    (Stub.finish_body Stub.signature).
Proof.
  split; [exists (Stub.start_body (JNumber Stub.f20000)) |].
  - repeat split; vm_compute; reflexivity.
  - split; vm_compute; reflexivity.
Defined.

Lemma Stub_numeric_token_finish :
  finish_answered Stub.primitives Scenario.numeric_token Stub.c0 []
    (Stub.resp (Stub.start_body (JNumber Stub.f20000))) Stub.fields
    (Stub.resp Scenario.numeric_token_body) Scenario.numeric_token_body.
Proof.
  split; [exists (Stub.start_body (JNumber Stub.f20000)) |].
  - repeat split; vm_compute; reflexivity.
  - split; vm_compute; reflexivity.
Defined.

Lemma create_session_iff_signature_equal_witness :
  posted_to Stub.c0 endpointAuthCreateSession
    (issued [] (snd (call_Login Stub.primitives Stub.honest Stub.c0 []))) /\
  ~ posted_to Stub.c0 endpointAuthCreateSession
    (issued [] (snd (call_Login Stub.primitives Stub.tampered Stub.c0 []))) /\
  ~ posted_to Stub.c0 endpointAuthCreateSession
    (issued [] (snd (call_Login Stub.primitives Scenario.numeric_token Stub.c0 []))).
Proof.
  split; [| split].
  - apply (proj1 (create_session_iff_signature_equal
             Stub.primitives Stub.honest Stub.c0 []
             (Stub.resp (Stub.start_body (JNumber Stub.f20000))) Stub.fields
             (Stub.resp (Stub.finish_body Stub.signature))
             (Stub.finish_body Stub.signature)
             (proj1 (Stub_sized Stub.honest eq_refl))
             (proj1 (proj2 (Stub_sized Stub.honest eq_refl)))
             Stub_honest_finish)).
    exists (string_of_bytes Stub.signature), "tok".
    repeat split; vm_compute; reflexivity.
  - intros Hposted.
    apply (proj1 (create_session_iff_signature_equal
             Stub.primitives Stub.tampered Stub.c0 []
             (Stub.resp (Stub.start_body (JNumber Stub.f20000))) Stub.fields
             (Stub.resp (Stub.finish_body (Stub.flip_at 31 Stub.signature)))
             (Stub.finish_body (Stub.flip_at 31 Stub.signature))
             (proj1 (Stub_sized Stub.tampered eq_refl))
             (proj1 (proj2 (Stub_sized Stub.tampered eq_refl)))
             Stub_tampered_finish)) in Hposted.
    destruct Hposted as (signatureStr & token & Hsig & _ & Heq & _).
    vm_compute in Hsig. injection Hsig as <-.
    vm_compute in Heq. discriminate Heq.
  - intros Hposted.
    apply (proj1 (create_session_iff_signature_equal
             Stub.primitives Scenario.numeric_token Stub.c0 []
             (Stub.resp (Stub.start_body (JNumber Stub.f20000))) Stub.fields
             (Stub.resp Scenario.numeric_token_body) Scenario.numeric_token_body
             (proj1 (Stub_sized Scenario.numeric_token eq_refl))
             (proj1 (proj2 (Stub_sized Scenario.numeric_token eq_refl)))
             Stub_numeric_token_finish)) in Hposted.
    destruct Hposted as (signatureStr & token & _ & Htok & _).
    vm_compute in Htok. discriminate Htok.
Defined.

(** ** Rejected credentials *)

(** C7. [Login] returns the error "authentication failed" exactly when the
    call got as far as a readable AuthFinish answer and that answer lacks the
    key [signature] or the key [token]; the status code of the answer plays
    no part.  With both keys present the call does not end this way. *)
Theorem authentication_failed_iff
  (P : Primitives) (W : World) (c : AuthClient) (log : list Exchange) :
  fst (call_Login P W c log) = Returned ("", errors_New "authentication failed")
  <->
  exists resp a respFinish resultFinish,
    finish_answered P W c log resp a respFinish resultFinish /\
    (resultFinish !! "signature" = None \/ resultFinish !! "token" = None).
Proof.
  split.
  - unfold_call.
    repeat first [ progress cbn [negb orb andb]
                 | case_scrutinee; try (cbn; discriminate) ].
    all: intros _;
      match goal with
      | Hn : _ !! "nonce" = Some (JString ?sn),
        Hr : _ !! "rounds" = Some (JNumber ?rf),
        Hs : _ !! "salt" = Some (JString ?ss),
        Ht : _ !! "transactionId" = Some (JString ?ti),
        Hd : http_Do _ _ _ = Answered ?resp,
        Hf : http_Do _ (_ ++ _) _ = Answered ?respF,
        Hb : Body ?respF = Some ?resultF |- _ =>
          exists resp,
            {| serverNonce := sn; roundsFloat := rf;
               serverSalt := ss; transactionId := ti |},
            respF, resultF
      end.
    all: unfold_run;
      (split; [split; [eexists; repeat split; eassumption | split; assumption] | auto]).
  - intros (resp & a & respFinish & resultFinish &
            ((result & [Hdo Hbody] & (Hn & Hr & Hs & Ht)) & HdoF & HbodyF) & Hlack).
    destruct a as [sn rf ss ti].
    destruct Hlack as [Hlack | Hlack]; run_body; reflexivity.
Qed.

Lemma authentication_failed_iff_witness :
  fst (call_Login Stub.primitives Stub.wrong_password Stub.c0 [])
    = Returned ("", errors_New "authentication failed").
Proof.
  apply (proj2 (authentication_failed_iff
                  Stub.primitives Stub.wrong_password Stub.c0 [])).
  exists (Stub.resp (Stub.start_body (JNumber Stub.f20000))), Stub.fields,
    {| StatusCode := 200; Body := Some (<["error" := JString "bad"]> ∅) |},
    (<["error" := JString "bad"]> ∅).
  split; [split; [exists (Stub.start_body (JNumber Stub.f20000)) | ] | ].
  - repeat split; vm_compute; reflexivity.
  - split; vm_compute; reflexivity.
  - left. vm_compute. reflexivity.
Defined.

(** ** The AuthStart answer *)

(** C3 (what the code does). When the AuthStart answer lacks one of
    [nonce], [rounds], [salt], [transactionId], or carries [rounds] as a
    string, the call of [Login] does not return an error: it panics in a type
    assertion, after the AuthStart exchange and before any other request. *)
Theorem Login_panics_on_malformed_AuthStart
  (P : Primitives) (W : World) (c : AuthClient) (log : list Exchange)
  (resp : Response) (result : gmap string json) :
  start_answered W c log resp result ->
  (result !! "nonce" = None \/ result !! "rounds" = None \/
   result !! "salt" = None \/ result !! "transactionId" = None \/
   exists s, result !! "rounds" = Some (JString s)) ->
  exists msg,
    call_Login P W c log =
      (Panic msg,
       {| client := c; exchanges := log ++ [(start_request W c, Answered resp)] |}).
Proof.
  intros [Hdo Hbody] Hbad.
  destruct Hbad as [Hbad | [Hbad | [Hbad | [Hbad | [s Hbad]]]]];
    run_body; eexists; reflexivity.
Qed.

Lemma Login_panics_on_malformed_AuthStart_witness :
  (exists msg,
      call_Login Stub.primitives Stub.malformed_rounds Stub.c0 [] =
        (Panic msg,
         {| client := Stub.c0;
            exchanges := [(start_request Stub.malformed_rounds Stub.c0,
                           Answered (Stub.resp (Stub.start_body (JString "many"))))] |})) /\
  (exists msg,
      call_Login Stub.primitives Stub.empty_start Stub.c0 [] =
        (Panic msg,
         {| client := Stub.c0;
            exchanges := [(start_request Stub.empty_start Stub.c0,
                           Answered (Stub.resp ∅))] |})).
Proof.
  split.
  - apply (Login_panics_on_malformed_AuthStart
             Stub.primitives Stub.malformed_rounds Stub.c0 []
             (Stub.resp (Stub.start_body (JString "many")))
             (Stub.start_body (JString "many"))).
    + split; vm_compute; reflexivity.
    + do 4 right. exists "many". vm_compute. reflexivity.
  - apply (Login_panics_on_malformed_AuthStart
             Stub.primitives Stub.empty_start Stub.c0 []
             (Stub.resp ∅) ∅).
    + split; vm_compute; reflexivity.
    + left. vm_compute. reflexivity.
Defined.

(** The message of the panic for [rounds] sent as a string. *)
Example Login_malformed_rounds_message :
  fst (call_Login Stub.primitives Stub.malformed_rounds Stub.c0 []) =
    Panic "interface conversion: interface {} is string, not float64".
Proof. vm_compute. reflexivity. Qed.

(** A numeric [rounds] is accepted: 29000.0 becomes the integer 29000, and
    against the honest stub the call returns the session id. *)
Lemma int64_of_float64_29000 (P : Primitives) :
  int64_of_float64 P Stub.f29000 = 29000.
Proof. reflexivity. Qed.

Example Login_honest_stub :
  call_Login Stub.primitives Stub.honest Stub.c0 [] =
    (Returned ("sess-1", None),
     {| client := {| Scheme := "http"; Server := "inverter";
                     Password := "changeme"; SessionId := "sess-1" |};
        exchanges :=
          [(start_request Stub.honest Stub.c0,
            Answered (Stub.resp (Stub.start_body (JNumber Stub.f20000))));
           (finish_request Stub.primitives Stub.honest Stub.c0 Stub.fields,
            Answered (Stub.resp (Stub.finish_body Stub.signature)));
           (session_request Stub.primitives Stub.honest Stub.c0 Stub.fields "tok",
            Answered (Stub.resp Stub.session_body))] |}).
Proof. vm_compute. reflexivity. Qed.

(** ** The authentication message and the protocol key *)

Lemma append_empty_r (s : string) : s +:+ "" = s.
Proof.
  induction s as [| x s IH]; [reflexivity |].
  change (String x (s +:+ "") = String x s). rewrite IH. reflexivity.
Qed.

Lemma authMessage_derive (P : Primitives) (password userName nonce sn ss : string)
  (r : Z) :
  authMessage (derive P password userName nonce sn ss r) =
    "n=" +:+ userName +:+ ",r=" +:+ nonce +:+ ",r=" +:+ sn +:+ ",s=" +:+ ss
      +:+ ",i=" +:+ fmt.FormatInt r +:+ ",c=biws,r=" +:+ sn.
Proof.
  unfold derive. cbn [authMessage fmt.Sprintf fmt.verb Ascii.eqb Bool.eqb].
  rewrite append_empty_r. reflexivity.
Qed.

Lemma derive_signatures (P : Primitives) (password userName nonce sn ss : string)
  (r : Z) :
  let d := derive P password userName nonce sn ss r in
  clientSignature d = GetHMACSHA256 P (storedKey d) (authMessage d) /\
  serverSignature d = GetHMACSHA256 P (serverKey d) (authMessage d) /\
  clientProof d = CreateClientProof P (clientSignature d) (clientKey d).
Proof.
  cbv beta iota zeta delta
    [derive clientSignature serverSignature clientProof storedKey serverKey
     clientKey authMessage].
  repeat split.
Qed.

(** C4. The message that [Login] signs is
    [n=user,r=<client nonce>,r=<server nonce>,s=<salt>,i=<rounds>,c=biws,r=<server nonce>]:
    the client nonce is the base64 text sent in the AuthStart request, the
    server nonce and the salt are the strings of the AuthStart answer as
    received, the rounds are printed in decimal, and the server nonce is
    repeated at the end.  The proof sent in the AuthFinish request is made
    from the signatures of this message. *)
Theorem authMessage_format
  (P : Primitives) (W : World) (c : AuthClient) (log : list Exchange)
  (resp : Response) (result : gmap string json) (a : StartFields) :
  start_answered W c log resp result ->
  has_start_fields result a ->
  let d := derived P W c a in
  let message :=
    "n=" +:+ "user" +:+ ",r=" +:+ base64String W +:+ ",r=" +:+ serverNonce a
      +:+ ",s=" +:+ serverSalt a +:+ ",i=" +:+ fmt.FormatInt (rounds P a)
      +:+ ",c=biws,r=" +:+ serverNonce a in
  authMessage d = message /\
  base64String W = b64.EncodeToString (bytes_of_string (RandSeq W 12)) /\
  ReqBody (start_request W c) = [("nonce", base64String W); ("username", "user")] /\
  clientSignature d = GetHMACSHA256 P (storedKey d) message /\
  serverSignature d = GetHMACSHA256 P (serverKey d) message /\
  ReqBody (finish_request P W c a) =
    [("transactionId", transactionId a);
     ("proof", CreateClientProof P (GetHMACSHA256 P (storedKey d) message)
                                   (clientKey d))] /\
  exists rp rest,
    issued log (snd (call_Login P W c log)) =
      (start_request W c, Answered resp) :: (finish_request P W c a, rp) :: rest.
Proof.
  intros Hstart Hfields d message.
  pose proof (authMessage_derive P (Password c) "user" (base64String W)
                (serverNonce a) (serverSalt a) (rounds P a)) as Hmsg.
  pose proof (derive_signatures P (Password c) "user" (base64String W)
                (serverNonce a) (serverSalt a) (rounds P a)) as (Hcs & Hss & Hcp).
  fold (derived P W c a) in Hmsg, Hcs, Hss, Hcp. fold d in Hmsg, Hcs, Hss, Hcp.
  fold message in Hmsg. rewrite Hmsg in Hcs, Hss.
  split; [exact Hmsg |].
  split; [reflexivity |].
  split; [reflexivity |].
  split; [exact Hcs |].
  split; [exact Hss |].
  split.
  - unfold finish_request, post, Marshal_finish.
    cbn [ReqBody Finish_TransactionId Proof_]. fold d. rewrite Hcp, Hcs. reflexivity.
  - destruct (Login_finish_issued P W c log resp result a Hstart Hfields)
      as [rest Hrest].
    eauto.
Qed.

Lemma authMessage_format_witness :
  authMessage (derived Stub.primitives Stub.honest Stub.c0 Stub.fields) =
    "n=user,r=TGJkYWFpekNMZWpY,r=SrvNonce-xyz,s=MDEyMzQ1Njc4OUFCQ0RFRg==,i=20000,c=biws,r=SrvNonce-xyz".
Proof.
  destruct (authMessage_format Stub.primitives Stub.honest Stub.c0 []
              (Stub.resp (Stub.start_body (JNumber Stub.f20000)))
              (Stub.start_body (JNumber Stub.f20000)) Stub.fields) as [Hmsg _].
  - split; vm_compute; reflexivity.
  - repeat split; vm_compute; reflexivity.
  - rewrite Hmsg. vm_compute. reflexivity.
Defined.

Lemma protocolKey_chain (P : Primitives) (d : Derived) :
  protocolKey P d =
    hmac_sha256 P (storedKey d)
      (bytes_of_string "Session Key" ++ bytes_of_string (authMessage d)
         ++ clientKey d)%list.
Proof.
  unfold protocolKey, hmac_Sum, hmac_Write, hmac_New. cbn [hmac_key hmac_written].
  rewrite <- app_assoc. reflexivity.
Qed.

(** C9. The key handed to AES-GCM is HMAC-SHA-256 under [storedKey] of
    ["Session Key"], the authentication message and [clientKey], in this
    order, as one message; it has 32 bytes, and the create_session request
    carries the token sealed under it: the ciphertext as [payload] and the
    16 bytes behind it as [tag]. *)
Theorem protocolKey_is_chained_HMAC
  (P : Primitives) (W : World) (c : AuthClient) (log : list Exchange)
  (resp : Response) (a : StartFields) (respFinish : Response)
  (resultFinish : gmap string json) (signatureStr token : string) :
  well_sized P W ->
  finish_answered P W c log resp a respFinish resultFinish ->
  resultFinish !! "signature" = Some (JString signatureStr) ->
  resultFinish !! "token" = Some (JString token) ->
  b64_DecodeString P signatureStr = serverSignature (derived P W c a) ->
  let d := derived P W c a in
  let key :=
    hmac_sha256 P (storedKey d)
      (bytes_of_string "Session Key" ++ bytes_of_string (authMessage d)
         ++ clientKey d)%list in
  let ivNonce := GenerateRandomBytes W 16 in
  let sealed := gcm_Seal P key ivNonce (bytes_of_string token) in
  protocolKey P d = key /\
  length key = 32%nat /\
  aes_NewCipher key = None /\
  ReqBody (session_request P W c a token) =
    [("transactionId", transactionId a);
     ("iv", b64.EncodeToString ivNonce);
     ("tag", b64.EncodeToString (skipn (length (bytes_of_string token)) sealed));
     ("payload", b64.EncodeToString (firstn (length (bytes_of_string token)) sealed))] /\
  length (skipn (length (bytes_of_string token)) sealed) = 16%nat /\
  exists rp,
    issued log (snd (call_Login P W c log)) =
      [(start_request W c, Answered resp);
       (finish_request P W c a, Answered respFinish);
       (session_request P W c a token, rp)].
Proof.
  intros Hsize Hfin Hsig Htok Heq d key ivNonce sealed.
  pose proof Hsize as (Hmac & Hseal & Hiv).
  assert (Hn : Z.to_nat (Z.of_nat (length sealed) - 16)
               = length (bytes_of_string token))
    by (subst sealed; rewrite Hseal; lia).
  split; [apply protocolKey_chain |].
  split; [apply Hmac |].
  split; [apply aes_NewCipher_32, Hmac |].
  split; [| split].
  - unfold session_request, post, Marshal_session.
    cbn [ReqBody TransactionId Iv Tag Payload].
    fold d. rewrite protocolKey_chain. fold key ivNonce sealed. rewrite Hn.
    reflexivity.
  - subst sealed. rewrite length_skipn, Hseal. lia.
  - pose proof (Login_session_issued P W c log _ _ _ _ _ _ Hsize Hfin Hsig Htok Heq)
      as Hlog.
    cbv zeta in Hlog. unfold issued. rewrite Hlog, <- app_assoc, drop_app_length.
    eexists. reflexivity.
Qed.

Lemma protocolKey_is_chained_HMAC_witness :
  exists rp,
    issued [] (snd (call_Login Stub.primitives Stub.honest Stub.c0 [])) =
      [(start_request Stub.honest Stub.c0,
        Answered (Stub.resp (Stub.start_body (JNumber Stub.f20000))));
       (finish_request Stub.primitives Stub.honest Stub.c0 Stub.fields,
        Answered (Stub.resp (Stub.finish_body Stub.signature)));
       (session_request Stub.primitives Stub.honest Stub.c0 Stub.fields "tok", rp)].
Proof.
  apply (protocolKey_is_chained_HMAC Stub.primitives Stub.honest Stub.c0 []
           (Stub.resp (Stub.start_body (JNumber Stub.f20000))) Stub.fields
           (Stub.resp (Stub.finish_body Stub.signature))
           (Stub.finish_body Stub.signature)
           (string_of_bytes Stub.signature) "tok"
           (Stub_sized Stub.honest eq_refl) Stub_honest_finish).
  - vm_compute; reflexivity.
  - vm_compute; reflexivity.
  - vm_compute; reflexivity.
Defined.

(** ** Counting in the authentication message *)

Lemma encode_not_pad (i : N) : Ascii.eqb (b64.encode i) "=" = false.
Proof.
  unfold b64.encode.
  assert (Hall : Forall (fun ch => Ascii.eqb ch "=" = false)
                   (list_ascii_of_string b64.encodeStd))
    by (vm_compute; repeat constructor).
  destruct (Nat.lt_ge_cases (N.to_nat i)
              (length (list_ascii_of_string b64.encodeStd))) as [Hlt | Hge].
  - exact (proj1 (List.Forall_nth _ _) Hall _ _ Hlt).
  - rewrite nth_overflow by exact Hge. reflexivity.
Qed.

(** Whole groups of three bytes are encoded without padding. *)
Lemma Encode_no_pad (n : nat) (src : bytes) :
  length src = (3 * n)%nat -> holds "=" (b64.Encode src) = false.
Proof.
  revert src. induction n as [| n IH]; intros src Hlen.
  - destruct src; [reflexivity | discriminate].
  - destruct src as [| s0 [| s1 [| s2 rest]]]; try (cbn in Hlen; lia).
    cbn [b64.Encode holds]. unfold b64.sextet. rewrite !encode_not_pad.
    cbn [orb]. apply IH. cbn in Hlen. lia.
Qed.

Lemma length_bytes_of_string (s : string) :
  length (bytes_of_string s) = String.length s.
Proof.
  unfold bytes_of_string, list_byte_of_string. rewrite length_map.
  induction s as [| x s IH]; cbn; [| rewrite IH]; reflexivity.
Qed.

Lemma occurrences_cons (sub : string) (ch : ascii) (s : string) :
  occurrences sub (String ch s) =
    ((if String.prefix sub (String ch s) then 1 else 0) + occurrences sub s)%nat.
Proof. reflexivity. Qed.

(** A pattern whose second character is [=] does not start inside a text
    free of [=] that is followed by another character. *)
Lemma occurrences_skip (p0 : ascii) (ptail mid rest : string) (x : ascii) :
  holds "=" mid = false ->
  Ascii.eqb x "=" = false ->
  occurrences (String p0 (String "=" ptail)) (mid +:+ String x rest) =
    occurrences (String p0 (String "=" ptail)) (String x rest).
Proof.
  intros Hmid Hx. induction mid as [| m mid IH]; [reflexivity |].
  change (String m mid +:+ String x rest) with (String m (mid +:+ String x rest)).
  rewrite occurrences_cons.
  cbn [holds] in Hmid. apply orb_false_iff in Hmid as [Hm Hmid].
  rewrite (IH Hmid).
  assert (Hpre : String.prefix (String p0 (String "=" ptail))
                   (String m (mid +:+ String x rest)) = false).
  { cbn [String.prefix]. destruct (ascii_dec p0 m); [| reflexivity].
    destruct mid as [| m' mid'].
    - change ("" +:+ String x rest) with (String x rest). cbn [String.prefix].
      destruct (ascii_dec "=" x) as [<- |]; [discriminate Hx | reflexivity].
    - change (String m' mid' +:+ String x rest)
        with (String m' (mid' +:+ String x rest)).
      cbn [String.prefix]. cbn [holds] in Hmid. apply orb_false_iff in Hmid as [Hm' _].
      destruct (ascii_dec "=" m') as [<- |]; [discriminate Hm' | reflexivity]. }
  rewrite Hpre. reflexivity.
Qed.

(** The first character after the nonce is a comma. *)
Lemma occurrences_after_nonce (p0 : ascii) (ptail nonce rest : string) :
  holds "=" nonce = false ->
  occurrences (String p0 (String "=" ptail)) (nonce +:+ String "," rest) =
    occurrences (String p0 (String "=" ptail)) (String "," rest).
Proof. intros Hn. apply occurrences_skip; [exact Hn | reflexivity]. Qed.

(** C5 (as amended). For every 12-character client nonce and the server
    strings of the happy-path fixture, the authentication message begins
    with [n=user,r=] and holds exactly three occurrences of [r=], one of
    [s=], one of [i=] and one of [c=biws]. *)
Theorem authMessage_counts
  (P : Primitives) (W : World) (c : AuthClient) (a : StartFields) :
  String.length (RandSeq W 12) = 12%nat ->
  serverNonce a = "SrvNonce-xyz" ->
  serverSalt a = b64.EncodeToString (bytes_of_string "0123456789ABCDEF") ->
  rounds P a = 20000 ->
  let message := authMessage (derived P W c a) in
  String.prefix "n=user,r=" message = true /\
  occurrences "r=" message = 3%nat /\
  occurrences "s=" message = 1%nat /\
  occurrences "i=" message = 1%nat /\
  occurrences "c=biws" message = 1%nat.
Proof.
  intros Hlen Hnonce Hsalt Hrounds message.
  assert (Hpad : holds "=" (base64String W) = false).
  { apply (Encode_no_pad 4). rewrite length_bytes_of_string. exact Hlen. }
  assert (Hmsg : message =
            String "n" (String "=" (String "u" (String "s" (String "e" (String "r"
              (String "," (String "r" (String "="
                (base64String W +:+
                   ",r=SrvNonce-xyz,s=MDEyMzQ1Njc4OUFCQ0RFRg==,i=20000,c=biws,r=SrvNonce-xyz")))))))))).
  { subst message. unfold derived.
    rewrite authMessage_derive, Hnonce, Hsalt, Hrounds. reflexivity. }
  rewrite Hmsg. clear Hmsg message.
  rewrite !occurrences_cons.
  rewrite !(occurrences_after_nonce _ _ _ _ Hpad).
  generalize (base64String W +:+
    ",r=SrvNonce-xyz,s=MDEyMzQ1Njc4OUFCQ0RFRg==,i=20000,c=biws,r=SrvNonce-xyz").
  intros [| t tail]; vm_compute; repeat split.
Qed.

Lemma authMessage_counts_witness :
  let message := authMessage (derived Stub.primitives Stub.honest Stub.c0 Stub.fields) in
  String.prefix "n=user,r=" message = true /\
  occurrences "r=" message = 3%nat /\
  occurrences "s=" message = 1%nat /\
  occurrences "i=" message = 1%nat /\
  occurrences "c=biws" message = 1%nat.
Proof.
  apply (authMessage_counts Stub.primitives Stub.honest Stub.c0 Stub.fields).
  - reflexivity.
  - reflexivity.
  - vm_compute. reflexivity.
  - vm_compute. reflexivity.
Defined.

(** With the nonce of the stub and the server strings of the fixture, the
    message has three occurrences of [r=], not four. *)
Lemma authMessage_not_four_r :
  String.length (RandSeq Stub.honest 12) = 12%nat /\
  authMessage (derived Stub.primitives Stub.honest Stub.c0 Stub.fields) =
    "n=user,r=TGJkYWFpekNMZWpY,r=SrvNonce-xyz,s=MDEyMzQ1Njc4OUFCQ0RFRg==,i=20000,c=biws,r=SrvNonce-xyz" /\
  occurrences "r="
    (authMessage (derived Stub.primitives Stub.honest Stub.c0 Stub.fields)) = 3%nat /\
  occurrences "r="
    (authMessage (derived Stub.primitives Stub.honest Stub.c0 Stub.fields)) <> 4%nat.
Proof.
  split; [reflexivity |]. split; [vm_compute; reflexivity |].
  split; [vm_compute; reflexivity |]. vm_compute. discriminate.
Qed.

(** ** Logout *)

(** C2 (as amended). When the logout request cannot be built, is not
    answered, or is answered with a status other than 200, [Logout] returns
    [false] with an error and leaves the client, its [SessionId] included,
    as it was. *)
Theorem Logout_failure_keeps_session
  (W : World) (c : AuthClient) (log : list Exchange) :
  (http_NewRequest W "POST" (URL (logout_request c)) <> None \/
   (exists err, http_Do W log (logout_request c) = Failed err) \/
   (exists resp, http_Do W log (logout_request c) = Answered resp /\
                 StatusCode resp <> 200)) ->
  (exists err, fst (call_Logout W c log) = Returned (false, Some err)) /\
  client (snd (call_Logout W c log)) = c /\
  SessionId (client (snd (call_Logout W c log))) = SessionId c.
Proof.
  intros Hfail.
  assert (Hgoal : (exists err, fst (call_Logout W c log) = Returned (false, Some err))
                  /\ client (snd (call_Logout W c log)) = c).
  { destruct Hfail as [Hnew | [[err Hdo] | (resp & Hdo & Hstatus)]].
    - run_body; cbn; eauto.
    - run_body; cbn; eauto.
    - assert (Hneg : negb (StatusCode resp =? 200) = true)
        by (rewrite (proj2 (Z.eqb_neq _ _) Hstatus); reflexivity).
      run_body; cbn; eauto. }
  destruct Hgoal as [Herr Hc]. rewrite Hc. auto.
Qed.

(** After an answer with status 200 the session id is cleared. *)
Lemma Logout_success_clears (W : World) (c : AuthClient) (log : list Exchange)
  (resp : Response) :
  http_NewRequest W "POST" (URL (logout_request c)) = None ->
  http_Do W log (logout_request c) = Answered resp ->
  StatusCode resp = 200 ->
  fst (call_Logout W c log) = Returned (true, None) /\
  SessionId (client (snd (call_Logout W c log))) = "".
Proof.
  intros Hnew Hdo Hstatus.
  assert (Hneg : negb (StatusCode resp =? 200) = false)
    by (rewrite Hstatus; reflexivity).
  run_body; cbn; auto.
Qed.

Lemma Logout_failure_keeps_session_witness :
  (exists err, fst (call_Logout Stub.unreachable Stub.logged_in [])
               = Returned (false, Some err)) /\
  client (snd (call_Logout Stub.unreachable Stub.logged_in [])) = Stub.logged_in /\
  SessionId (client (snd (call_Logout Stub.unreachable Stub.logged_in []))) = "sess-1".
Proof.
  apply (Logout_failure_keeps_session Stub.unreachable Stub.logged_in []).
  right. left. exists "connection refused". vm_compute. reflexivity.
Defined.

(** A logged-in client whose logout request meets a network failure, or an
    answer with status 500, gets the error and still holds its session id:
    it is not true that [SessionId] is empty after every failed [Logout]. *)
Lemma Logout_failure_does_not_clear :
  call_Logout Stub.unreachable Stub.logged_in [] =
    (Returned (false, errors_New "logout error"),
     {| client := Stub.logged_in;
        exchanges := [(logout_request Stub.logged_in, Failed "connection refused")] |}) /\
  SessionId (client (snd (call_Logout Stub.unreachable Stub.logged_in []))) = "sess-1" /\
  SessionId (client (snd (call_Logout
     (Stub.world Stub.down Stub.down Stub.down
        (Answered {| StatusCode := 500; Body := Some ∅ |}))
     Stub.logged_in []))) = "sess-1" /\
  ~ (forall (W : World) (c : AuthClient) (log : list Exchange),
        fst (call_Logout W c log) <> Returned (true, None) ->
        SessionId (client (snd (call_Logout W c log))) = "").
Proof.
  split; [vm_compute; reflexivity |]. split; [vm_compute; reflexivity |].
  split; [vm_compute; reflexivity |].
  intros Hclaim.
  specialize (Hclaim Stub.unreachable Stub.logged_in []).
  vm_compute in Hclaim.
  assert (Habs : "sess-1" = "") by (apply Hclaim; discriminate).
  discriminate Habs.
Qed.

(** ** Scheme normalisation and the fresh client *)

(** C6. [NewWithParameter] and [SetScheme] store ["http"] for every scheme
    that is not exactly the string ["https"], and keep ["https"]. *)
Theorem scheme_normalized
  (scheme : string) (c : AuthClient) (server password sid : string) :
  scheme <> "https" ->
  Scheme (NewWithParameter (mkAuthClient scheme server password sid)) = "http" /\
  Scheme (SetScheme c scheme) = "http" /\
  Scheme (NewWithParameter (mkAuthClient "https" server password sid)) = "https" /\
  Scheme (SetScheme c "https") = "https".
Proof.
  intros Hne. unfold NewWithParameter, SetScheme. cbn [Scheme].
  destruct (String.eqb_spec scheme "https") as [Heq | _]; [contradiction |].
  repeat split.
Qed.

Lemma scheme_normalized_witness :
  Scheme (NewWithParameter (mkAuthClient "HTTPS" "inverter" "changeme" "")) = "http" /\
  Scheme (SetScheme New "HTTPS") = "http" /\
  Scheme (NewWithParameter (mkAuthClient "HtTpS" "inverter" "changeme" "")) = "http" /\
  Scheme (SetScheme New "HtTpS") = "http" /\
  getUrl (NewWithParameter (mkAuthClient "HtTpS" "inverter" "changeme" ""))
         endpointAuthStart = "http://inverter/api/v1/auth/start".
Proof.
  destruct (scheme_normalized "HTTPS" New "inverter" "changeme" "")
    as (H1 & H2 & _); [discriminate |].
  destruct (scheme_normalized "HtTpS" New "inverter" "changeme" "")
    as (H3 & H4 & _); [discriminate |].
  repeat split; assumption || reflexivity.
Defined.

(** C10. The client returned by [NewWithParameter] has an empty
    [SessionId], whatever [SessionId] the argument carries; the server and
    the password of the argument are kept. *)
Theorem NewWithParameter_logged_out :
  forall param : AuthClient,
    SessionId (NewWithParameter param) = "" /\
    Server (NewWithParameter param) = Server param /\
    Password (NewWithParameter param) = Password param.
Proof.
  intros param. unfold NewWithParameter.
  destruct (String.eqb (Scheme param) "https"); repeat split.
Qed.

(** * Further properties of the client *)

(** ** How Login ends *)

Ltac unfold_handshake :=
  unfold signature_accepted, complete_run in *;
  unfold session_reply in *; unfold handshake in *.

Lemma Login_client_cases
  (P : Primitives) (W : World) (c : AuthClient) (log : list Exchange) :
  match fst (call_Login P W c log) with
  | Returned (id, None) =>
      client (snd (call_Login P W c log)) = with_SessionId c id
  | Returned (id, Some _) =>
      id = "" /\ client (snd (call_Login P W c log)) = c
  | Panic _ => client (snd (call_Login P W c log)) = c
  end.
Proof.
  unfold with_SessionId.
  unfold_call. unfold errors_New.
  repeat first [ progress cbn [negb orb andb]
               | case_scrutinee ].
  all: cbn; auto.
Qed.

(** X1. Every call of [Login] ends in one of two ways: it returns an id
    with a nil error and has stored that id in [SessionId], changing nothing
    else of the client; or it leaves the client exactly as it was and either
    returns the empty string with an error or panics. *)
Theorem Login_result_and_client
  (P : Primitives) (W : World) (c : AuthClient) (log : list Exchange) :
  (exists id,
      fst (call_Login P W c log) = Returned (id, None) /\
      client (snd (call_Login P W c log)) = with_SessionId c id) \/
  (client (snd (call_Login P W c log)) = c /\
   ((exists text, fst (call_Login P W c log) = Returned ("", Some text)) \/
    (exists msg, fst (call_Login P W c log) = Panic msg))).
Proof.
  pose proof (Login_client_cases P W c log) as Hcases.
  destruct (fst (call_Login P W c log)) as [[id [text |]] | msg].
  - destruct Hcases as [-> Hc]. right. split; [exact Hc |]. left. eauto.
  - left. eauto.
  - right. split; [exact Hcases |]. right. eauto.
Qed.

(** X2. [Login] calls [http.Post] at least once and at most three times,
    and nothing else of the HTTP client: the calls are made with the URLs of
    start, finish and create_session, in this order and each at most once,
    and each with the content type [application/json].  (The statement counts
    the calls of [http.Post]; how many requests a call puts on the wire is
    left to the Go library.) *)
Theorem Login_requests_in_order
  (P : Primitives) (W : World) (c : AuthClient) (log : list Exchange) :
  exists n,
    (1 <= n <= 3)%nat /\
    map (fun x => URL (fst x)) (issued log (snd (call_Login P W c log)))
      = firstn n (endpoints c) /\
    Forall (fun x => Method (fst x) = "POST" /\
                     Header (fst x) = [("Content-Type", "application/json")])
           (issued log (snd (call_Login P W c log))).
Proof.
  unfold issued, endpoints. unfold_call.
  repeat first [ progress cbn [negb orb andb] | case_scrutinee ].
  all: rewrite <- ?app_assoc, drop_app_length; cbn [app map fst URL].
  all: first [ exists 1%nat; split; [lia |]; split; [reflexivity |];
               repeat constructor
             | exists 2%nat; split; [lia |]; split; [reflexivity |];
               repeat constructor
             | exists 3%nat; split; [lia |]; split; [reflexivity |];
               repeat constructor ].
Qed.

(** X3. [Login] does not look at the session id the client already holds:
    on a client that is logged in it neither fails nor logs out first, but
    runs the same exchanges with the same results as on a fresh client. *)
Theorem Login_ignores_SessionId
  (P : Primitives) (W : World) (c : AuthClient) (log : list Exchange) (id : string) :
  fst (call_Login P W (with_SessionId c id) log) = fst (call_Login P W c log) /\
  exchanges (snd (call_Login P W (with_SessionId c id) log))
    = exchanges (snd (call_Login P W c log)).
Proof.
  unfold with_SessionId. unfold_call. unfold getUrl. cbn [Scheme Server Password].
  repeat first [ progress cbn [negb orb andb] | case_scrutinee ].
  all: cbn; split; reflexivity.
Qed.

Section LastStage.

Variable P : Primitives.
Variable W : World.
Variable c : AuthClient.
Variable log : list Exchange.

(** After an accepted signature the call is decided by the answer to the
    CreateSession request. *)
Lemma Login_after_handshake resp a respFinish token :
  well_sized P W ->
  signature_accepted P W c log resp a respFinish token ->
  call_Login P W c log =
    match session_reply P W c log resp a respFinish token with
    | Failed _ =>
        (Returned ("", errors_New "could not create session"),
         {| client := c;
            exchanges := complete_run P W c log resp a respFinish token |})
    | Answered respSession =>
        match Body respSession with
        | None =>
            (Returned ("", errors_New "could not read from create session request"),
             {| client := c;
                exchanges := complete_run P W c log resp a respFinish token |})
        | Some result =>
            match result !! "sessionId" with
            | None =>
                (Returned ("", errors_New "session id not available"),
                 {| client := c;
                    exchanges := complete_run P W c log resp a respFinish token |})
            | Some (JString id) =>
                (Returned (id, None),
                 {| client := with_SessionId c id;
                    exchanges := complete_run P W c log resp a respFinish token |})
            | Some v =>
                (Panic ("interface conversion: interface {} is "
                          +:+ type_name (Some v) +:+ ", not string"),
                 {| client := c;
                    exchanges := complete_run P W c log resp a respFinish token |})
            end
        end
    end.
Proof.
  intros (Hmac & Hseal & Hiv)
         (resultFinish & signatureStr &
          ((result & [Hdo Hbody] & (Hn & Hr & Hs & Ht)) & HdoF & HbodyF) &
          Hsig & Htok & Heq).
  pose proof (bytes_Compare_same (serverSignature (derived P W c a))) as Hcmp.
  rewrite <- Heq in Hcmp at 1.
  assert (Hkey : forall d, aes_NewCipher (protocolKey P d) = None)
    by (intros d; apply aes_NewCipher_32, Hmac).
  assert (Hivb : (Z.of_nat (length (GenerateRandomBytes W 16)) =? 16) = true)
    by (rewrite Hiv; reflexivity).
  assert (Htag : forall key nonce plaintext,
             (Z.of_nat (length (gcm_Seal P key nonce plaintext)) - 16 <? 0) = false)
    by (intros; rewrite Hseal; apply Z.ltb_ge; lia).
  unfold_handshake. unfold with_SessionId.
  replace (log ++ [(start_request W c, Answered resp);
                   (finish_request P W c a, Answered respFinish)])%list
    with ((log ++ [(start_request W c, Answered resp)])
            ++ [(finish_request P W c a, Answered respFinish)])%list
    by (rewrite <- app_assoc; reflexivity).
  destruct a as [sn rf ss ti].
  unfold_call; unfold_run.
  repeat first [ progress cbn [negb orb andb]
               | rewrite Hkey | rewrite Hivb | rewrite Htag
               | case_scrutinee; simplify_eq; try congruence ].
  all: reflexivity.
Qed.

End LastStage.

Lemma Stub_accepted (session logout : reply) :
  signature_accepted Stub.primitives
    (Stub.world (Stub.ok (Stub.start_body (JNumber Stub.f20000)))
                (Stub.ok (Stub.finish_body Stub.signature)) session logout)
    Stub.c0 []
    (Stub.resp (Stub.start_body (JNumber Stub.f20000))) Stub.fields
    (Stub.resp (Stub.finish_body Stub.signature)) "tok".
Proof.
  exists (Stub.finish_body Stub.signature), (string_of_bytes Stub.signature).
  split; [split; [exists (Stub.start_body (JNumber Stub.f20000)) |] |].
  - repeat split; vm_compute; reflexivity.
  - split; vm_compute; reflexivity.
  - repeat split; vm_compute; reflexivity.
Qed.

(** X4. A complete run: after an accepted signature and a CreateSession
    answer whose [sessionId] is a string, [Login] returns that string with a
    nil error and stores it in [SessionId]; nothing else of the client
    changes, and the call has made exactly the three exchanges. *)
Theorem Login_success
  (P : Primitives) (W : World) (c : AuthClient) (log : list Exchange)
  (resp : Response) (a : StartFields) (respFinish : Response) (token : string)
  (respSession : Response) (result : gmap string json) (id : string) :
  well_sized P W ->
  signature_accepted P W c log resp a respFinish token ->
  session_reply P W c log resp a respFinish token = Answered respSession ->
  Body respSession = Some result ->
  result !! "sessionId" = Some (JString id) ->
  call_Login P W c log =
    (Returned (id, None),
     {| client := with_SessionId c id;
        exchanges := complete_run P W c log resp a respFinish token |}).
Proof.
  intros Hsize Hacc Hreply Hbody Hid.
  rewrite (Login_after_handshake P W c log _ _ _ _ Hsize Hacc), Hreply, Hbody, Hid.
  reflexivity.
Qed.

Lemma Login_success_witness :
  call_Login Stub.primitives Stub.honest Stub.c0 [] =
    (Returned ("sess-1", None),
     {| client := with_SessionId Stub.c0 "sess-1";
        exchanges := complete_run Stub.primitives Stub.honest Stub.c0 []
                       (Stub.resp (Stub.start_body (JNumber Stub.f20000)))
                       Stub.fields
                       (Stub.resp (Stub.finish_body Stub.signature)) "tok" |}).
Proof.
  apply (Login_success Stub.primitives Stub.honest Stub.c0 []
           (Stub.resp (Stub.start_body (JNumber Stub.f20000))) Stub.fields
           (Stub.resp (Stub.finish_body Stub.signature)) "tok"
           (Stub.resp Stub.session_body) Stub.session_body "sess-1"
           (Stub_sized Stub.honest eq_refl) (Stub_accepted _ _)).
  - vm_compute; reflexivity.
  - reflexivity.
  - vm_compute; reflexivity.
Defined.

(** X5. When the CreateSession answer cannot be used, the session is not
    established: without the key [sessionId] the call returns the error
    "session id not available", after a failed request "could not create
    session", after an unreadable body "could not read from create session
    request"; the client keeps its former [SessionId]. *)
Theorem Login_session_refused
  (P : Primitives) (W : World) (c : AuthClient) (log : list Exchange)
  (resp : Response) (a : StartFields) (respFinish : Response) (token : string) :
  well_sized P W ->
  signature_accepted P W c log resp a respFinish token ->
  (forall respSession result,
      session_reply P W c log resp a respFinish token = Answered respSession ->
      Body respSession = Some result ->
      result !! "sessionId" = None) ->
  call_Login P W c log =
    (Returned ("", errors_New
        match session_reply P W c log resp a respFinish token with
        | Failed _ => "could not create session"
        | Answered respSession =>
            match Body respSession with
            | None => "could not read from create session request"
            | Some _ => "session id not available"
            end
        end),
     {| client := c;
        exchanges := complete_run P W c log resp a respFinish token |}).
Proof.
  intros Hsize Hacc Hnone.
  rewrite (Login_after_handshake P W c log _ _ _ _ Hsize Hacc).
  destruct (session_reply P W c log resp a respFinish token)
    as [err | respSession]; [reflexivity |].
  destruct (Body respSession) as [result |] eqn:Hbody; [| reflexivity].
  rewrite (Hnone respSession result eq_refl Hbody). reflexivity.
Qed.

Lemma Login_session_refused_witness :
  fst (call_Login Stub.primitives (Scenario.after_handshake (Stub.ok ∅)) Stub.c0 [])
    = Returned ("", errors_New "session id not available") /\
  fst (call_Login Stub.primitives (Scenario.after_handshake Stub.down) Stub.c0 [])
    = Returned ("", errors_New "could not create session") /\
  fst (call_Login Stub.primitives (Scenario.after_handshake Scenario.unreadable)
         Stub.c0 [])
    = Returned ("", errors_New "could not read from create session request").
Proof.
  split; [| split].
  - rewrite (Login_session_refused Stub.primitives
               (Scenario.after_handshake (Stub.ok ∅)) Stub.c0 []
               (Stub.resp (Stub.start_body (JNumber Stub.f20000))) Stub.fields
               (Stub.resp (Stub.finish_body Stub.signature)) "tok"
               (Stub_sized (Scenario.after_handshake (Stub.ok ∅)) eq_refl) (Stub_accepted _ _)).
    + vm_compute; reflexivity.
    + intros respSession result Hreply Hbody.
      vm_compute in Hreply. injection Hreply as <-.
      cbn in Hbody. injection Hbody as <-. reflexivity.
  - rewrite (Login_session_refused Stub.primitives
               (Scenario.after_handshake Stub.down) Stub.c0 []
               (Stub.resp (Stub.start_body (JNumber Stub.f20000))) Stub.fields
               (Stub.resp (Stub.finish_body Stub.signature)) "tok"
               (Stub_sized (Scenario.after_handshake Stub.down) eq_refl) (Stub_accepted _ _)).
    + vm_compute; reflexivity.
    + intros respSession result Hreply. vm_compute in Hreply. discriminate Hreply.
  - rewrite (Login_session_refused Stub.primitives
               (Scenario.after_handshake Scenario.unreadable) Stub.c0 []
               (Stub.resp (Stub.start_body (JNumber Stub.f20000))) Stub.fields
               (Stub.resp (Stub.finish_body Stub.signature)) "tok"
               (Stub_sized (Scenario.after_handshake Scenario.unreadable) eq_refl) (Stub_accepted _ _)).
    + vm_compute; reflexivity.
    + intros respSession result Hreply Hbody.
      vm_compute in Hreply. injection Hreply as <-. discriminate Hbody.
Defined.

(** X6. A [sessionId] that is present but is not a JSON string (a number,
    [null], ...) makes [Login] panic in the type assertion, after the three
    exchanges; the presence check alone does not protect the call. *)
Theorem Login_sessionId_not_string
  (P : Primitives) (W : World) (c : AuthClient) (log : list Exchange)
  (resp : Response) (a : StartFields) (respFinish : Response) (token : string)
  (respSession : Response) (result : gmap string json) (v : json) :
  well_sized P W ->
  signature_accepted P W c log resp a respFinish token ->
  session_reply P W c log resp a respFinish token = Answered respSession ->
  Body respSession = Some result ->
  result !! "sessionId" = Some v ->
  is_JString v = false ->
  call_Login P W c log =
    (Panic ("interface conversion: interface {} is " +:+ type_name (Some v)
              +:+ ", not string"),
     {| client := c;
        exchanges := complete_run P W c log resp a respFinish token |}).
Proof.
  intros Hsize Hacc Hreply Hbody Hid Hv.
  rewrite (Login_after_handshake P W c log _ _ _ _ Hsize Hacc), Hreply, Hbody, Hid.
  destruct v; try reflexivity. discriminate Hv.
Qed.

Lemma Login_sessionId_not_string_witness :
  fst (call_Login Stub.primitives
         (Scenario.after_handshake (Stub.ok (<["sessionId" := JNull]> ∅)))
         Stub.c0 [])
    = Panic "interface conversion: interface {} is nil, not string".
Proof.
  rewrite (Login_sessionId_not_string Stub.primitives
             (Scenario.after_handshake (Stub.ok (<["sessionId" := JNull]> ∅)))
             Stub.c0 []
             (Stub.resp (Stub.start_body (JNumber Stub.f20000))) Stub.fields
             (Stub.resp (Stub.finish_body Stub.signature)) "tok"
             (Stub.resp (<["sessionId" := JNull]> ∅))
             (<["sessionId" := JNull]> ∅) JNull
             (Stub_sized (Scenario.after_handshake (Stub.ok (<["sessionId" := JNull]> ∅))) eq_refl) (Stub_accepted _ _)).
  - reflexivity.
  - vm_compute; reflexivity.
  - reflexivity.
  - vm_compute; reflexivity.
  - reflexivity.
Defined.

(** X7. When the call of [http.Post] for AuthStart returns an error,
    whatever its cause, [Login] returns "could not initiate authentication";
    when it returns a response whose body cannot be read, [Login] returns
    "could not read authentication response".  In both cases this call of
    [http.Post] is the only one [Login] makes, and the client is unchanged. *)
Theorem Login_start_transport_error
  (P : Primitives) (W : World) (c : AuthClient) (log : list Exchange) :
  (forall resp, http_Do W log (start_request W c) = Answered resp ->
                Body resp = None) ->
  call_Login P W c log =
    (Returned ("", errors_New
        match http_Do W log (start_request W c) with
        | Failed _ => "could not initiate authentication"
        | Answered _ => "could not read authentication response"
        end),
     {| client := c;
        exchanges := log ++ [(start_request W c,
                              http_Do W log (start_request W c))] |}).
Proof.
  intros Hnone. unfold_call; unfold_run.
  destruct (http_Do W log _) as [err | resp] eqn:Hdo; [reflexivity |].
  rewrite (Hnone resp eq_refl). reflexivity.
Qed.

Lemma Login_start_transport_error_witness :
  call_Login Stub.primitives Stub.unreachable Stub.c0 [] =
    (Returned ("", errors_New "could not initiate authentication"),
     {| client := Stub.c0;
        exchanges := [(start_request Stub.unreachable Stub.c0,
                       Failed "connection refused")] |}).
Proof.
  rewrite (Login_start_transport_error Stub.primitives Stub.unreachable Stub.c0 []).
  - vm_compute; reflexivity.
  - intros resp Hdo. vm_compute in Hdo. discriminate Hdo.
Defined.

(** X8. The same at the second step: with the AuthStart fields in hand, a
    failed AuthFinish request or an unreadable answer ends [Login] after two
    exchanges with the error of that step, and the client is unchanged. *)
Theorem Login_finish_transport_error
  (P : Primitives) (W : World) (c : AuthClient) (log : list Exchange)
  (resp : Response) (result : gmap string json) (a : StartFields) :
  start_answered W c log resp result ->
  has_start_fields result a ->
  (forall respFinish, finish_reply P W c log resp a = Answered respFinish ->
                      Body respFinish = None) ->
  call_Login P W c log =
    (Returned ("", errors_New
        match finish_reply P W c log resp a with
        | Failed _ => "could not initiate authentication finish request"
        | Answered _ => "could not read from authentication finish request"
        end),
     {| client := c;
        exchanges := log ++ [(start_request W c, Answered resp);
                             (finish_request P W c a,
                              finish_reply P W c log resp a)] |}).
Proof.
  intros [Hdo Hbody] (Hn & Hr & Hs & Ht) Hnone. unfold finish_reply in *.
  destruct a as [sn rf ss ti].
  unfold_call; unfold_run. rewrite Hdo, Hbody, Hn, Hr, Hs, Ht.
  destruct (http_Do W (log ++ _) _) as [err | respFinish] eqn:HdoF.
  - rewrite <- app_assoc. reflexivity.
  - rewrite (Hnone respFinish eq_refl), <- app_assoc. reflexivity.
Qed.

Lemma Login_finish_transport_error_witness :
  fst (call_Login Stub.primitives (Scenario.start_only Stub.down) Stub.c0 [])
    = Returned ("", errors_New "could not initiate authentication finish request") /\
  fst (call_Login Stub.primitives (Scenario.start_only Scenario.unreadable) Stub.c0 [])
    = Returned ("", errors_New "could not read from authentication finish request").
Proof.
  split.
  - rewrite (Login_finish_transport_error Stub.primitives
               (Scenario.start_only Stub.down) Stub.c0 []
               (Stub.resp (Stub.start_body (JNumber Stub.f20000)))
               (Stub.start_body (JNumber Stub.f20000)) Stub.fields).
    + vm_compute; reflexivity.
    + split; vm_compute; reflexivity.
    + repeat split; vm_compute; reflexivity.
    + intros respFinish H. vm_compute in H. discriminate H.
  - rewrite (Login_finish_transport_error Stub.primitives
               (Scenario.start_only Scenario.unreadable) Stub.c0 []
               (Stub.resp (Stub.start_body (JNumber Stub.f20000)))
               (Stub.start_body (JNumber Stub.f20000)) Stub.fields).
    + vm_compute; reflexivity.
    + split; vm_compute; reflexivity.
    + repeat split; vm_compute; reflexivity.
    + intros respFinish H. vm_compute in H. injection H as <-. reflexivity.
Defined.

(** X9. In the AuthFinish answer the keys [signature] and [token] are only
    checked for presence: when both are present and one of them is not a
    JSON string, [Login] panics in a type assertion instead of returning
    "authentication failed". *)
Theorem Login_finish_fields_not_strings
  (P : Primitives) (W : World) (c : AuthClient) (log : list Exchange)
  (resp : Response) (a : StartFields) (respFinish : Response)
  (resultFinish : gmap string json) (v w : json) :
  finish_answered P W c log resp a respFinish resultFinish ->
  resultFinish !! "signature" = Some v ->
  resultFinish !! "token" = Some w ->
  is_JString v && is_JString w = false ->
  exists msg,
    call_Login P W c log =
      (Panic msg,
       {| client := c; exchanges := handshake P W c log resp a respFinish |}).
Proof.
  intros ((result & [Hdo Hbody] & (Hn & Hr & Hs & Ht)) & HdoF & HbodyF) Hv Hw Hnot.
  unfold handshake. destruct a as [sn rf ss ti].
  unfold_call; unfold_run.
  rewrite Hdo, Hbody, Hn, Hr, Hs, Ht, HdoF, HbodyF, Hv, Hw.
  cbn [negb orb]. rewrite <- app_assoc.
  destruct v; try (eexists; reflexivity).
  destruct w; try (eexists; reflexivity).
  discriminate Hnot.
Qed.

Lemma Login_finish_fields_not_strings_witness :
  exists msg,
    call_Login Stub.primitives Scenario.null_signature Stub.c0 [] =
      (Panic msg,
       {| client := Stub.c0;
          exchanges := handshake Stub.primitives Scenario.null_signature Stub.c0 []
            (Stub.resp (Stub.start_body (JNumber Stub.f20000))) Stub.fields
            (Stub.resp (<["signature" := JNull]> (<["token" := JString "tok"]> ∅))) |}).
Proof.
  apply (Login_finish_fields_not_strings Stub.primitives Scenario.null_signature
           Stub.c0 []
           (Stub.resp (Stub.start_body (JNumber Stub.f20000))) Stub.fields
           (Stub.resp (<["signature" := JNull]> (<["token" := JString "tok"]> ∅)))
           (<["signature" := JNull]> (<["token" := JString "tok"]> ∅))
           JNull (JString "tok")).
  - split; [exists (Stub.start_body (JNumber Stub.f20000)) |].
    + repeat split; vm_compute; reflexivity.
    + split; vm_compute; reflexivity.
  - vm_compute; reflexivity.
  - vm_compute; reflexivity.
  - reflexivity.
Defined.

(** X10. The error of [helper.GenerateRandomBytes] is discarded: when the
    generator hands out anything but 16 bytes, [Login] panics in [Seal] after
    the signature has been accepted, and no CreateSession request is made. *)
Theorem Login_short_iv_panics
  (P : Primitives) (W : World) (c : AuthClient) (log : list Exchange)
  (resp : Response) (a : StartFields) (respFinish : Response) (token : string) :
  (forall key message, length (hmac_sha256 P key message) = 32%nat) ->
  signature_accepted P W c log resp a respFinish token ->
  length (GenerateRandomBytes W 16) <> 16%nat ->
  call_Login P W c log =
    (Panic "crypto/cipher: incorrect nonce length given to GCM",
     {| client := c; exchanges := handshake P W c log resp a respFinish |}).
Proof.
  intros Hmac
         (resultFinish & signatureStr &
          ((result & [Hdo Hbody] & (Hn & Hr & Hs & Ht)) & HdoF & HbodyF) &
          Hsig & Htok & Heq) Hiv.
  pose proof (bytes_Compare_same (serverSignature (derived P W c a))) as Hcmp.
  rewrite <- Heq in Hcmp at 1.
  assert (Hkey : forall d, aes_NewCipher (protocolKey P d) = None)
    by (intros d; apply aes_NewCipher_32, Hmac).
  assert (Hivb : (Z.of_nat (length (GenerateRandomBytes W 16)) =? 16) = false)
    by (apply Z.eqb_neq; lia).
  unfold handshake. destruct a as [sn rf ss ti].
  unfold_call; unfold_run.
  rewrite Hdo, Hbody, Hn, Hr, Hs, Ht, HdoF, HbodyF, Hsig, Htok.
  cbn [negb orb]. rewrite Hcmp, Hkey, Hivb, <- app_assoc. reflexivity.
Qed.

Lemma Login_short_iv_panics_witness :
  fst (call_Login Stub.primitives Scenario.no_entropy Stub.c0 [])
    = Panic "crypto/cipher: incorrect nonce length given to GCM".
Proof.
  rewrite (Login_short_iv_panics Stub.primitives Scenario.no_entropy Stub.c0 []
             (Stub.resp (Stub.start_body (JNumber Stub.f20000))) Stub.fields
             (Stub.resp (Stub.finish_body Stub.signature)) "tok").
  - reflexivity.
  - intros key message. cbn [hmac_sha256 Stub.primitives]. unfold Stub.pad32.
    rewrite length_firstn, length_app, repeat_length. lia.
  - exact (Stub_accepted (Stub.ok Stub.session_body) (Stub.ok ∅)).
  - cbn. discriminate.
Defined.

(** ** Logout *)

(** X11. [Logout] never changes the scheme, the server or the password.
    When [http.NewRequest] fails it returns that error with [false] and does
    not call [client.Do]; otherwise it calls [client.Do] exactly once, with
    the logout request, whatever the session id is (an empty id is passed on
    as it is). *)
Theorem Logout_one_request (W : World) (c : AuthClient) (log : list Exchange) :
  Scheme (client (snd (call_Logout W c log))) = Scheme c /\
  Server (client (snd (call_Logout W c log))) = Server c /\
  Password (client (snd (call_Logout W c log))) = Password c /\
  issued log (snd (call_Logout W c log)) =
    match http_NewRequest W "POST" (URL (logout_request c)) with
    | Some _ => []
    | None => [(logout_request c, http_Do W log (logout_request c))]
    end /\
  match http_NewRequest W "POST" (URL (logout_request c)) with
  | Some text => fst (call_Logout W c log) = Returned (false, Some text)
  | None => True
  end.
Proof.
  unfold issued. unfold_call; unfold_run.
  repeat first [ progress cbn [negb orb andb] | case_scrutinee ].
  all: cbn [Scheme Server Password fst snd client exchanges];
    rewrite ?drop_app_length, ?drop_all; repeat split.
Qed.

(** X12. After an answer with status 200, [Logout] returns [true] with a nil
    error and the client holds the empty session id. *)
Theorem Logout_success (W : World) (c : AuthClient) (log : list Exchange)
  (resp : Response) :
  http_NewRequest W "POST" (URL (logout_request c)) = None ->
  http_Do W log (logout_request c) = Answered resp ->
  StatusCode resp = 200 ->
  call_Logout W c log =
    (Returned (true, None),
     {| client := with_SessionId c "";
        exchanges := log ++ [(logout_request c, Answered resp)] |}).
Proof.
  intros Hnew Hdo Hstatus. unfold with_SessionId.
  unfold_call; unfold_run. rewrite Hnew, Hdo, Hstatus. reflexivity.
Qed.

Lemma Logout_success_witness :
  call_Logout Stub.honest Stub.logged_in [] =
    (Returned (true, None),
     {| client := with_SessionId Stub.logged_in "";
        exchanges := [(logout_request Stub.logged_in, Answered (Stub.resp ∅))] |}).
Proof.
  apply (Logout_success Stub.honest Stub.logged_in [] (Stub.resp ∅)).
  - reflexivity.
  - vm_compute; reflexivity.
  - reflexivity.
Defined.

(** X13. [Login] followed by [Logout]: after a complete run that returned
    [id], the logout request carries [Session id] in its Authorization
    header, and an answer with status 200 leaves the client with the empty
    session id and otherwise as it was before [Login]. *)
Theorem Login_then_Logout
  (P : Primitives) (W : World) (c : AuthClient) (log : list Exchange)
  (resp : Response) (a : StartFields) (respFinish : Response) (token : string)
  (respSession : Response) (result : gmap string json) (id : string)
  (respLogout : Response) :
  well_sized P W ->
  signature_accepted P W c log resp a respFinish token ->
  session_reply P W c log resp a respFinish token = Answered respSession ->
  Body respSession = Some result ->
  result !! "sessionId" = Some (JString id) ->
  let after := snd (call_Login P W c log) in
  http_NewRequest W "POST" (URL (logout_request (client after))) = None ->
  http_Do W (exchanges after) (logout_request (client after)) = Answered respLogout ->
  StatusCode respLogout = 200 ->
  Header (logout_request (client after)) = [("Authorization", "Session " +:+ id)] /\
  call_Logout W (client after) (exchanges after) =
    (Returned (true, None),
     {| client := with_SessionId c "";
        exchanges := complete_run P W c log resp a respFinish token
                       ++ [(logout_request (with_SessionId c id),
                            Answered respLogout)] |}).
Proof.
  intros Hsize Hacc Hreply Hbody Hid after.
  subst after.
  rewrite (Login_after_handshake P W c log _ _ _ _ Hsize Hacc), Hreply, Hbody, Hid.
  cbn [snd client exchanges]. intros Hnew Hdo Hstatus.
  split; [reflexivity |].
  unfold complete_run, with_SessionId in *. cbn [Scheme Server Password SessionId].
  unfold_call; unfold_run. cbn [Scheme Server Password SessionId] in *.
  rewrite Hnew, Hdo, Hstatus. reflexivity.
Qed.

Lemma Login_then_Logout_witness :
  let after := snd (call_Login Stub.primitives Stub.honest Stub.c0 []) in
  Header (logout_request (client after)) = [("Authorization", "Session sess-1")] /\
  client (snd (call_Logout Stub.honest (client after) (exchanges after))) = Stub.c0.
Proof.
  destruct (Login_then_Logout Stub.primitives Stub.honest Stub.c0 []
              (Stub.resp (Stub.start_body (JNumber Stub.f20000))) Stub.fields
              (Stub.resp (Stub.finish_body Stub.signature)) "tok"
              (Stub.resp Stub.session_body) Stub.session_body "sess-1"
              (Stub.resp ∅)
              (Stub_sized Stub.honest eq_refl) (Stub_accepted _ _))
    as [Hheader Hlogout].
  - vm_compute; reflexivity.
  - reflexivity.
  - vm_compute; reflexivity.
  - vm_compute; reflexivity.
  - vm_compute; reflexivity.
  - reflexivity.
  - cbv zeta. split; [exact Hheader |]. rewrite Hlogout. reflexivity.
Defined.

(** ** Configuration *)

(** X14. Each setter stores its argument in the field it names ([SetScheme]
    after normalising it to "https" or "http") and leaves the other three
    fields, [SessionId] among them, as they are; setting a field twice keeps
    the later value; the setters commute with each other; [SetScheme] and
    [NewWithParameter] applied to their own result change nothing more; and
    a [New] client configured with the setters is, for [NewWithParameter],
    the same as the struct with these fields. *)
Theorem setters_are_independent
  (c : AuthClient) (scheme server password : string) :
  (Server (SetServer c server) = server /\
   Scheme (SetServer c server) = Scheme c /\
   Password (SetServer c server) = Password c /\
   SessionId (SetServer c server) = SessionId c) /\
  (Password (SetPassword c password) = password /\
   Scheme (SetPassword c password) = Scheme c /\
   Server (SetPassword c password) = Server c /\
   SessionId (SetPassword c password) = SessionId c) /\
  (Scheme (SetScheme c scheme) = (if String.eqb scheme "https" then "https" else "http") /\
   Server (SetScheme c scheme) = Server c /\
   Password (SetScheme c scheme) = Password c /\
   SessionId (SetScheme c scheme) = SessionId c) /\
  (forall earlier, SetServer (SetServer c earlier) server = SetServer c server) /\
  (forall earlier, SetPassword (SetPassword c earlier) password = SetPassword c password) /\
  (forall earlier, SetScheme (SetScheme c earlier) scheme = SetScheme c scheme) /\
  SessionId (SetScheme (SetServer (SetPassword c password) server) scheme)
    = SessionId c /\
  SetServer (SetPassword c password) server
    = SetPassword (SetServer c server) password /\
  SetScheme (SetServer c server) scheme = SetServer (SetScheme c scheme) server /\
  SetScheme (SetPassword c password) scheme
    = SetPassword (SetScheme c scheme) password /\
  SetScheme (SetScheme c scheme) (Scheme (SetScheme c scheme)) = SetScheme c scheme /\
  NewWithParameter (NewWithParameter c) = NewWithParameter c /\
  NewWithParameter (SetScheme (SetServer (SetPassword New password) server) scheme)
    = NewWithParameter (mkAuthClient scheme server password "").
Proof.
  unfold SetScheme, SetServer, SetPassword, NewWithParameter, New.
  cbn [Scheme Server Password SessionId].
  destruct (String.eqb scheme "https"), (String.eqb (Scheme c) "https");
    repeat split.
Qed.

(** ** Me *)

(** X15. [Me] returns a nil error exactly when [http.NewRequest] succeeded,
    [client.Do] returned a response, and the body of that response decodes to
    a JSON object, whatever its status code is; with every error it returns
    the empty map; it panics exactly when [http.NewRequest] fails; and it
    calls [client.Do] once, with the request it built, unless it panics
    before. *)
Theorem Me_results (T : me.Transport) (c : AuthClient) :
  ((exists m, me.results (me.Me T c) = Returned (m, None)) <->
   me.NewRequest T "GET" (URL (me.me_request c)) = None /\
   exists response members,
     me.Do T (me.me_request c) = me.DoAnswer response /\
     me.Content response = me.Decoded (JObject members)) /\
  (forall m text, me.results (me.Me T c) = Returned (m, Some text) -> m = ∅) /\
  ((exists msg, me.results (me.Me T c) = Panic msg) <->
   me.NewRequest T "GET" (URL (me.me_request c)) <> None) /\
  me.sent (me.Me T c) =
    match me.NewRequest T "GET" (URL (me.me_request c)) with
    | Some _ => []
    | None => [me.me_request c]
    end.
Proof.
  unfold me.Me. cbn [URL me.me_request].
  destruct (me.NewRequest T "GET" (getUrl c "/api/v1/auth/me")) as [text |] eqn:Hnew;
    cbn [me.results me.sent].
  - split; [| split; [| split]].
    + split; [intros [m Hm]; discriminate Hm | intros [Hn _]; discriminate Hn].
    + intros m t Hm. discriminate Hm.
    + split; [discriminate | eauto].
    + reflexivity.
  - split; [| split; [| split]].
    + split.
      * intros [m Hm]. split; [reflexivity |].
        destruct (me.Do T (me.me_request c)) as [t | response]; [discriminate Hm |].
        destruct (me.Content response) as [t | t | v] eqn:Hc; try discriminate Hm.
        destruct v; try discriminate Hm. eauto.
      * intros (_ & response & members & Hdo & Hc). rewrite Hdo, Hc. eauto.
    + intros m t Hm.
      destruct (me.Do T (me.me_request c)) as [t' | response]; [congruence |].
      destruct (me.Content response) as [t' | t' | v]; try congruence.
      destruct v; congruence.
    + split; [| intros Hn; contradiction].
      intros [msg Hm].
      destruct (me.Do T (me.me_request c)) as [t' | response]; [discriminate Hm |].
      destruct (me.Content response) as [t' | t' | v]; try discriminate Hm.
      destruct v; discriminate Hm.
    + reflexivity.
Qed.

Lemma Me_results_witness :
  me.results
    (me.Me (me.answering
              (me.DoAnswer {| me.Status := 401;
                              me.Content := me.Decoded (JObject [("role", JString "USER")]) |}))
           Stub.logged_in)
    = Returned (<["role" := JString "USER"]> ∅, None).
Proof.
  destruct (proj2 (proj1 (Me_results
      (me.answering
         (me.DoAnswer {| me.Status := 401;
                         me.Content := me.Decoded (JObject [("role", JString "USER")]) |}))
      Stub.logged_in))) as [m Hm].
  - split; [reflexivity |]. eexists _, _. split; reflexivity.
  - rewrite Hm. vm_compute in Hm. injection Hm as <-. vm_compute. reflexivity.
Defined.

(** ** The command line *)

(** *** Splitting at one character *)

Lemma Split_nonempty (s : string) (sep : ascii) : strings.Split s sep <> [].
Proof.
  induction s as [| ch s IH]; cbn; [discriminate |].
  destruct (Ascii.eqb ch sep); [discriminate |].
  destruct (strings.Split s sep); [contradiction | discriminate].
Qed.

Lemma Split_free (s : string) (sep : ascii) :
  holds sep s = false -> strings.Split s sep = [s].
Proof.
  induction s as [| ch s IH]; cbn; [reflexivity |].
  intros H. apply orb_false_iff in H as [Hch Hs].
  rewrite Hch, (IH Hs). reflexivity.
Qed.

Lemma Split_app (a b : string) (sep : ascii) :
  strings.Split (a +:+ String sep b) sep
    = (strings.Split a sep ++ strings.Split b sep)%list.
Proof.
  induction a as [| ch a IH].
  - change ("" +:+ String sep b) with (String sep b). cbn.
    rewrite Ascii.eqb_refl. reflexivity.
  - change (String ch a +:+ String sep b) with (String ch (a +:+ String sep b)).
    cbn. rewrite IH. destruct (Ascii.eqb ch sep); [reflexivity |].
    pose proof (Split_nonempty a sep) as Hne.
    destruct (strings.Split a sep); [contradiction | reflexivity].
Qed.

Lemma Split_Join (l : list string) (sep : ascii) :
  l <> [] ->
  Forall (fun e => holds sep e = false) l ->
  strings.Split (strings.Join l (String sep "")) sep = l.
Proof.
  induction l as [| e l IH]; [contradiction |]. intros _ Hall.
  inversion Hall as [| ? ? He Hl]; subst.
  destruct l as [| e' l'].
  - cbn. apply Split_free, He.
  - change (strings.Join (e :: e' :: l') (String sep ""))
      with (e +:+ String sep "" +:+ strings.Join (e' :: l') (String sep "")).
    change (String sep "" +:+ strings.Join (e' :: l') (String sep ""))
      with (String sep (strings.Join (e' :: l') (String sep ""))).
    rewrite Split_app, (Split_free e sep He), IH; [reflexivity | discriminate | exact Hl].
Qed.

Lemma holds_app (ch : ascii) (a b : string) :
  holds ch (a +:+ b) = holds ch a || holds ch b.
Proof.
  induction a as [| x a IH]; [reflexivity |].
  change (String x a +:+ b) with (String x (a +:+ b)). cbn. rewrite IH.
  apply orb_assoc.
Qed.

(** *** Printing *)



(** *** Sessions of the commands *)


Lemma Logout_exchanges (W : World) (c : AuthClient) (log : list Exchange) :
  http_NewRequest W "POST" (URL (logout_request c)) = None ->
  exchanges (snd (call_Logout W c log))
    = (log ++ [(logout_request c, http_Do W log (logout_request c))])%list.
Proof.
  intros Hnew. unfold_call; unfold_run. rewrite Hnew.
  repeat first [ progress cbn [negb orb andb] | case_scrutinee ]; reflexivity.
Qed.


(** X18. After a login that succeeded, the logout request is the last
    exchange of the command, whether the data method returns values, returns
    an error or panics; when the data method has left the client alone, the
    request carries the session id that [Login] returned. *)
Theorem logout_follows_data_call
  (P : Primitives) (W : World) (V : Type) (L : cmd.Library V) (G : cmd.Globals)
  (log : list Exchange) (id moduleId : string) (ids : list string) :
  fst (call_Login P W (cmd.lib G) log) = Returned (id, None) ->
  let st := snd (call_Login P W (cmd.lib G) log) in
  let after := snd (cmd.ProcessDataModuleValues L moduleId ids st) in
  http_NewRequest W "POST" (URL (logout_request (client after))) = None ->
  client after = client st ->
  let bye := logout_request (client after) in
  Header bye = [("Authorization", "Session " +:+ id)] /\
  cmd.network (cmd.getProcessdata P W V L G log (moduleId :: ids))
    = (exchanges after ++ [(bye, http_Do W (exchanges after) bye)])%list /\
  cmd.crash (cmd.getProcessdata P W V L G log (moduleId :: ids))
    = match fst (cmd.ProcessDataModuleValues L moduleId ids st) with
      | Panic msg => Some msg
      | Returned _ => None
      end.
Proof.
  intros Hlogin st after Hnew Hkeep bye.
  pose proof (Login_client_cases P W (cmd.lib G) log) as Hclient.
  rewrite Hlogin in Hclient. fold st in Hclient.
  split; [| split].
  - unfold bye, logout_request. cbn [Header]. rewrite Hkeep, Hclient. reflexivity.
  - unfold cmd.getProcessdata, cmd.logged_in.
    destruct (call_Login P W (cmd.lib G) log) as [o s] eqn:Hcall.
    cbn [fst snd] in *. subst o st. cbn [cmd.network].
    unfold cmd.fetch_and_print. subst after bye.
    destruct (cmd.ProcessDataModuleValues L moduleId ids s) as [[[vs [e |]] | msg] s'];
      cbn [snd cmd.deferred_Logout cmd.network] in *;
      rewrite (Logout_exchanges W _ _ Hnew); reflexivity.
  - unfold cmd.getProcessdata, cmd.logged_in.
    destruct (call_Login P W (cmd.lib G) log) as [o s] eqn:Hcall.
    cbn [fst snd] in *. subst o st. cbn [cmd.crash].
    unfold cmd.fetch_and_print.
    destruct (cmd.ProcessDataModuleValues L moduleId ids s) as [[[vs [e |]] | msg] s'];
      reflexivity.
Qed.

(** X19. The argument checks come before any traffic: with the wrong number
    of arguments the settings commands print one line and make no request. *)
Theorem settings_arguments_checked
  (P : Primitives) (W : World) (V : Type) (L : cmd.Library V) (G : cmd.Globals)
  (log : list Exchange) (one two : list string) :
  length one <> 1%nat ->
  length two <> 2%nat ->
  (cmd.network (cmd.getSettingsModule P W V L G log one) = log /\
   length (cmd.stdout (cmd.getSettingsModule P W V L G log one)) = 1%nat /\
   cmd.crash (cmd.getSettingsModule P W V L G log one) = None) /\
  (cmd.network (cmd.getSettingsModuleSetting P W V L G log two) = log /\
   length (cmd.stdout (cmd.getSettingsModuleSetting P W V L G log two)) = 1%nat /\
   cmd.crash (cmd.getSettingsModuleSetting P W V L G log two) = None) /\
  (cmd.network (cmd.getSettingsModuleSettings P W V L G log two) = log /\
   length (cmd.stdout (cmd.getSettingsModuleSettings P W V L G log two)) = 1%nat /\
   cmd.crash (cmd.getSettingsModuleSettings P W V L G log two) = None).
Proof.
  intros Hone Htwo.
  unfold cmd.getSettingsModule, cmd.getSettingsModuleSetting,
    cmd.getSettingsModuleSettings.
  destruct (Nat.ltb_spec (length one) 1), (Nat.ltb_spec 1 (length one));
    try lia;
    destruct (Nat.ltb_spec (length two) 2), (Nat.ltb_spec 2 (length two));
    try lia; repeat split.
Qed.

(** *** The arguments of getMultProcessdata *)

Lemma Split_length_one (s : string) (sep : ascii) :
  (1 <? length (strings.Split s sep))%nat = holds sep s.
Proof.
  induction s as [| ch s IH]; [reflexivity |]. cbn [strings.Split holds].
  pose proof (Split_nonempty s sep) as Hne.
  destruct (Ascii.eqb ch sep); cbn [orb].
  - destruct (strings.Split s sep); [contradiction | reflexivity].
  - rewrite <- IH. destruct (strings.Split s sep); [contradiction | reflexivity].
Qed.

Lemma holds_Join (ch sep : ascii) (l : list string) :
  Ascii.eqb sep ch = false ->
  Forall (fun e => holds ch e = false) l ->
  holds ch (strings.Join l (String sep "")) = false.
Proof.
  intros Hsep Hall. induction Hall as [| e l He Hl IH]; [reflexivity |].
  destruct l as [| e' l']; [exact He |].
  change (strings.Join (e :: e' :: l') (String sep ""))
    with (e +:+ String sep "" +:+ strings.Join (e' :: l') (String sep "")).
  rewrite !holds_app, He, IH. cbn. rewrite Hsep. reflexivity.
Qed.

(** The request an argument [module|id,id,...] stands for. *)
Lemma split_arguments_Some (args : list string) (acc : list cmd.ProcessData) :
  Forall (fun a => length (strings.Split a "|") = 2%nat) args ->
  cmd.split_arguments args acc =
    Some (acc ++ map (fun a =>
                   {| cmd.ModuleId := nth 0 (strings.Split a "|") "";
                      cmd.ProcessDataIds :=
                        strings.Split (nth 1 (strings.Split a "|") "") "," |})
                 args)%list.
Proof.
  intros Hall. revert acc.
  induction Hall as [| a args Ha Hargs IH]; intros acc; cbn [cmd.split_arguments map].
  - rewrite app_nil_r. reflexivity.
  - rewrite Ha. cbn [Nat.eqb negb]. rewrite IH, <- app_assoc. reflexivity.
Qed.

Lemma split_arguments_None (args : list string) (acc : list cmd.ProcessData) :
  Exists (fun a => length (strings.Split a "|") <> 2%nat) args ->
  cmd.split_arguments args acc = None.
Proof.
  intros Hex. revert acc.
  induction Hex as [a args Ha | a args Hargs IH]; intros acc; cbn [cmd.split_arguments].
  - apply Nat.eqb_neq in Ha. rewrite Ha. reflexivity.
  - destruct (length (strings.Split a "|") =? 2)%nat; [apply IH | reflexivity].
Qed.

(** X20. [getMultProcessdata] turns away malformed arguments before it logs
    in: an argument list in bar form with a member that does not split in
    two at the bar, a list without bar that has not two members, or two
    members of which the first names several modules.  No request is made. *)
Theorem getMultProcessdata_rejects
  (P : Primitives) (W : World) (V : Type) (L : cmd.Library V) (G : cmd.Globals)
  (log : list Exchange) (arg0 : string) (rest : list string) :
  (strings.Contains arg0 "|" = true /\
   Exists (fun a => length (strings.Split a "|") <> 2%nat) (arg0 :: rest)) \/
  (strings.Contains arg0 "|" = false /\ length (arg0 :: rest) <> 2%nat) \/
  (strings.Contains arg0 "|" = false /\ length (arg0 :: rest) = 2%nat /\
   strings.Contains arg0 "," = true) ->
  cmd.network (cmd.getMultProcessdata P W V L G log (arg0 :: rest)) = log /\
  cmd.crash (cmd.getMultProcessdata P W V L G log (arg0 :: rest)) = None /\
  exists printed,
    cmd.stdout (cmd.getMultProcessdata P W V L G log (arg0 :: rest))
      = (printed ++
         [console.Println
            [if strings.Contains arg0 "|"
             then "Wrong format of moduleid and processdataid values."
             else if (length (arg0 :: rest) =? 2)%nat
                  then "Please enter only one moduleid."
                  else "Please submit module and processdata in an appropriate format."]])%list.
Proof.
  intros [[Hbar Hbad] | [[Hbar Hlen] | (Hbar & Hlen & Hcomma)]];
    unfold cmd.getMultProcessdata; rewrite Hbar.
  - rewrite (split_arguments_None _ _ Hbad). repeat split. exists []. reflexivity.
  - apply Nat.eqb_neq in Hlen. rewrite Hlen. repeat split. exists []. reflexivity.
  - rewrite Hlen. cbn [Nat.eqb]. unfold strings.Contains in Hcomma.
    rewrite Split_length_one, Hcomma. repeat split. eexists. reflexivity.
Qed.

(** X21. Arguments in bar form are read back exactly: when every argument
    is a module name, a bar and a comma-separated list of ids (names and ids
    free of bar and comma, no list empty), [getMultProcessdata] asks the
    library for just these modules with just these ids, in order. *)
Theorem getMultProcessdata_request
  (P : Primitives) (W : World) (V : Type) (L : cmd.Library V) (G : cmd.Globals)
  (log : list Exchange) (wanted : list (string * list string)) :
  wanted <> [] ->
  Forall (fun w => holds "|" (fst w) = false /\ snd w <> [] /\
                   Forall (fun i => holds "," i = false /\ holds "|" i = false) (snd w))
         wanted ->
  cmd.getMultProcessdata P W V L G log
    (map (fun w => fst w +:+ "|" +:+ strings.Join (snd w) ",") wanted)
  = cmd.logged_in P W G log
      (cmd.ProcessDataValues_ L
         (map (fun w => {| cmd.ModuleId := fst w; cmd.ProcessDataIds := snd w |})
              wanted))
      (cmd.print_values V L G) [].
Proof.
  intros Hne Hall.
  assert (Hparse : forall w,
    holds "|" (fst w) = false -> snd w <> [] ->
    Forall (fun i => holds "," i = false /\ holds "|" i = false) (snd w) ->
    strings.Split (fst w +:+ "|" +:+ strings.Join (snd w) ",") "|"
      = [fst w; strings.Join (snd w) ","] /\
    strings.Split (strings.Join (snd w) ",") "," = snd w).
  { intros [m ids] Hm Hids Hfree. cbn [fst snd] in *. split.
    - change ("|" +:+ strings.Join ids ",") with (String "|" (strings.Join ids ",")).
      rewrite Split_app, (Split_free m "|" Hm), Split_free; [reflexivity |].
      apply (holds_Join "|" ","); [reflexivity |].
      eapply Forall_impl; [exact Hfree | cbn; tauto].
    - apply (Split_Join _ ","); [exact Hids |].
      eapply Forall_impl; [exact Hfree | cbn; tauto]. }
  unfold cmd.getMultProcessdata.
  destruct wanted as [| w0 wanted']; [contradiction |]. cbn [map].
  assert (Hbar : strings.Contains (fst w0 +:+ "|" +:+ strings.Join (snd w0) ",") "|"
                 = true).
  { unfold strings.Contains. rewrite holds_app.
    change ("|" +:+ strings.Join (snd w0) ",") with (String "|" (strings.Join (snd w0) ",")).
    cbn [holds]. rewrite Ascii.eqb_refl. cbn. apply orb_true_r. }
  rewrite Hbar.
  change (?a :: map ?f wanted') with (map f (w0 :: wanted')).
  rewrite split_arguments_Some.
  - cbn [app]. f_equal. f_equal. rewrite map_map.
    apply map_ext_Forall.
    eapply Forall_impl; [exact Hall |].
    intros w (Hm & Hids & Hfree). cbn beta.
    destruct (Hparse w Hm Hids Hfree) as [Hsplit Hjoin].
    rewrite Hsplit. cbn [nth]. rewrite Hjoin. destruct w; reflexivity.
  - rewrite Forall_map. eapply Forall_impl; [exact Hall |].
    intros w (Hm & Hids & Hfree). cbn beta.
    destruct (Hparse w Hm Hids Hfree) as [Hsplit _]. rewrite Hsplit. reflexivity.
Qed.



Lemma logout_follows_data_call_witness :
  cmd.network (cmd.getProcessdata Stub.primitives Stub.honest Z Demo.library
                 Demo.globals [] ["unknown"; "Dc_P"])
    = (exchanges (snd (call_Login Stub.primitives Stub.honest Stub.c0 []))
         ++ [(logout_request Stub.logged_in, Answered (Stub.resp ∅))])%list.
Proof.
  destruct (logout_follows_data_call Stub.primitives Stub.honest Z Demo.library
              Demo.globals [] "sess-1" "unknown" ["Dc_P"])
    as (_ & Hnet & _).
  - vm_compute; reflexivity.
  - vm_compute; reflexivity.
  - vm_compute; reflexivity.
  - rewrite Hnet. vm_compute. reflexivity.
Defined.

Lemma settings_arguments_checked_witness :
  cmd.getSettingsModule Stub.primitives Stub.honest Z Demo.library Demo.globals []
    ["Battery"; "Inverter"]
  = cmd.say [] [console.Println ["Please submit only one moduleid."]] /\
  cmd.network (cmd.getSettingsModuleSetting Stub.primitives Stub.honest Z Demo.library
                 Demo.globals [] ["Battery"]) = [].
Proof.
  destruct (settings_arguments_checked Stub.primitives Stub.honest Z Demo.library
              Demo.globals [] ["Battery"; "Inverter"] ["Battery"])
    as (_ & (Hnet & _) & _).
  - cbn. discriminate.
  - cbn. discriminate.
  - split; [vm_compute; reflexivity | exact Hnet].
Defined.

Lemma getMultProcessdata_rejects_witness :
  cmd.network (cmd.getMultProcessdata Stub.primitives Stub.honest Z Demo.library
                 Demo.globals [] ["devices:local|Dc_P|Grid_P"]) = [] /\
  cmd.network (cmd.getMultProcessdata Stub.primitives Stub.honest Z Demo.library
                 Demo.globals [] ["devices:local,scb:statistic"; "Dc_P"]) = [].
Proof.
  split.
  - apply (getMultProcessdata_rejects Stub.primitives Stub.honest Z Demo.library
             Demo.globals [] "devices:local|Dc_P|Grid_P" []).
    left. split; [reflexivity |]. left. vm_compute. discriminate.
  - apply (getMultProcessdata_rejects Stub.primitives Stub.honest Z Demo.library
             Demo.globals [] "devices:local,scb:statistic" ["Dc_P"]).
    right. right. repeat split.
Defined.

Lemma getMultProcessdata_request_witness :
  cmd.getMultProcessdata Stub.primitives Stub.honest Z Demo.library Demo.globals []
    ["devices:local|Dc_P,Grid_P"; "scb:statistic|Yield"]
  = cmd.logged_in Stub.primitives Stub.honest Demo.globals []
      (cmd.ProcessDataValues_ Demo.library
         [{| cmd.ModuleId := "devices:local"; cmd.ProcessDataIds := ["Dc_P"; "Grid_P"] |};
          {| cmd.ModuleId := "scb:statistic"; cmd.ProcessDataIds := ["Yield"] |}])
      (cmd.print_values Z Demo.library Demo.globals) [].
Proof.
  apply (getMultProcessdata_request Stub.primitives Stub.honest Z Demo.library
           Demo.globals []
           [("devices:local", ["Dc_P"; "Grid_P"]); ("scb:statistic", ["Yield"])]).
  - discriminate.
  - repeat constructor; discriminate.
Defined.

Example getProcessdata_csv :
  cmd.stdout (cmd.getProcessdata Stub.primitives Stub.honest Z Demo.library
                Demo.globals [] ["devices:local"; "Dc_P"])
    = ["Module,Processdata Id,Processdata Unit,Processdata Value" +:+ console.nl;
       "devices:local,Dc_P,W,1200" +:+ console.nl].
Proof. vm_compute. reflexivity. Qed.
